(** * LibDS-C protocol codecs: FRC 2014 and FRC 2015

    A shallow embedding of [lib/LibDS-C/src/protocols/frc_2014.c] and
    [lib/LibDS-C/src/protocols/frc_2015.c], and the properties of the
    packet builders, packet parsers and control flags that the design
    document states about them.

    Conventions.
    - C integers are [Z]; a store into a [uint8_t], [uint16_t] or
      [unsigned int] object is written with [uint8], [uint16], [uint].
    - An [sds] buffer is the list of its bytes (each in 0..255).
    - A C [double] is a binary64 primitive float.
    - File-scope [static] variables of a codec are the fields of its
      [State] record, threaded explicitly through every function that
      reads or writes them; the process-wide configuration registry is
      the [Config] record. *)

From Stdlib Require Import ZArith Lia QArith Qround Floats Uint63.
From stdpp Require Import base list strings pretty.

Local Open Scope Z_scope.

(** ** Machine integers *)

(** Conversion to [uint8_t]. *)
Definition uint8 (z : Z) : Z := z mod 0x100.

(** Conversion to [uint16_t]. *)
Definition uint16 (z : Z) : Z := z mod 0x10000.

(** Conversion to [unsigned int] (32 bits on every platform LibDS targets). *)
Definition uint (z : Z) : Z := z mod 0x100000000.

(** A C integer used as a condition: [if (x)]. *)
Definition truthy (z : Z) : bool := negb (z =? 0).

(** The value of a C comparison or of a normalised boolean: 1 or 0. *)
Definition of_bool (b : bool) : Z := if b then 1 else 0.

(** [for (j = 0; j < n; ++j) acc = body (j, acc);] *)
Definition for_loop {A : Type} (n : Z) (body : Z -> A -> A) (init : A) : A :=
  fold_left (fun acc j => body (Z.of_nat j) acc) (seq 0 (Z.to_nat n)) init.

(** ** Byte buffers (the sds dynamic strings used as datagrams)

    The sds library is not among the protocol sources; its functions are
    given here by what its documentation says of them, on the "plain
    growable byte sequence" the design document prescribes for packets. *)

Abbreviation sds := (list Z).

(** [sdsempty ()] *)
Definition sdsempty : sds := [].

(** [sdsnewlen (NULL, n)]: [n] zero bytes. *)
Definition sdsnewlen_null (n : nat) : sds := replicate n 0.

(** [sdslen (s)] *)
Definition sdslen (s : sds) : Z := Z.of_nat (length s).

(** [sdscatsds (s, t)] *)
Definition sdscatsds (s t : sds) : sds := s ++ t.

(** [sdsgrowzero (s, n)]: pad with zero bytes up to length [n]; a buffer
    that is already that long is returned as it is. *)
Definition sdsgrowzero (s : sds) (n : nat) : sds := s ++ replicate (n - length s) 0.

(** [(uint8_t) data [i]].  An sds buffer of length [n] carries a
    terminating zero byte at index [n], which is what the default of
    [nth] yields there; no function below reads past that index. *)
Definition sds_at (data : sds) (i : nat) : Z := uint8 (nth i data 0).

(** [data [i] = v;] for an index inside the buffer. *)
Definition sds_set (i : nat) (v : Z) (data : sds) : sds := <[i := uint8 v]> data.

(** Modelled from the spec: [DS_Append] of DS_Utils, "grow-append a byte
    to a dynamically sized buffer". *)
Definition DS_Append (buf : sds) (byte : Z) : sds := buf ++ [uint8 byte].

(** A received datagram: [None] is the null pointer. *)
Abbreviation datagram := (option (list Z)).

(** ** Doubles *)

Definition double : Type := float.

(** [(double) n] for an integer [n] (exact below 2^53). *)
Definition double_of_int (n : Z) : double :=
  if n <? 0 then PrimFloat.opp (PrimFloat.of_uint63 (Uint63.of_Z (- n)))
  else PrimFloat.of_uint63 (Uint63.of_Z n).

(** The integer part of a double, rounding toward zero: the value of
    [(int) d].  (C leaves the conversion undefined when the integer part
    does not fit the target type; not-a-number and the infinities are
    mapped to 0 here.) *)
Definition int_of_double (d : double) : Z :=
  match Prim2SF d with
  | S754_finite s m e =>
      let a := if 0 <=? e then Z.shiftl (Z.pos m) e else Z.shiftr (Z.pos m) (- e) in
      if s then - a else a
  | _ => 0
  end.

(** The rational number a finite double stands for: mantissa times two
    to the exponent, in lowest terms. *)
Definition double_value (d : double) : option Q :=
  match Prim2SF d with
  | S754_zero _ => Some 0%Q
  | S754_finite s m e =>
      let q :=
        match e with
        | Z0 => inject_Z (Z.pos m)
        | Zpos k => inject_Z (Z.pos m * 2 ^ Zpos k)
        | Zneg k => Qmake (Z.pos m) (2 ^ k)
        end in
      Some (Qred (if s then Qopp q else q))
  | _ => None
  end.

(** ** The configuration registry (DS_Config) *)

(** Modelled from the spec: the enumeration of control modes declared
    with DS_Config, "one of {Teleoperated, Autonomous, Test}"; the
    constructors carry the names the protocols use. *)
Inductive DS_ControlMode : Set :=
| DS_CONTROL_TEST
| DS_CONTROL_AUTONOMOUS
| DS_CONTROL_TELEOPERATED.

(** Modelled from the spec: the alliance, "one of {Red, Blue}". *)
Inductive DS_Alliance : Set :=
| DS_ALLIANCE_RED
| DS_ALLIANCE_BLUE.

(** Modelled from the spec: the position, "one of {1, 2, 3}". *)
Inductive DS_Position : Set :=
| DS_POSITION_1
| DS_POSITION_2
| DS_POSITION_3.

(** Modelled from the spec: the configuration snapshot of DS_Config (its
    source is not part of the protocol files), "a thin facade over the
    fields": one field per accessor the codecs call. *)
Record Config : Type := mkConfig {
  team_number : Z;
  control_mode : DS_ControlMode;
  alliance : DS_Alliance;
  position : DS_Position;
  robot_enabled : bool;
  emergency_stopped : bool;
  fms_comms : bool;
  radio_comms : bool;
  robot_comms : bool;
  robot_code : bool;
  robot_voltage : double;
  robot_cpu_usage : Z;
  robot_ram_usage : Z;
  robot_disk_usage : Z;
  can_utilization : Z
}.

(** Modelled from the spec: the accessors of DS_Config, each a read of
    its own field. *)
Definition CFG_GetTeamNumber (c : Config) : Z := team_number c.
Definition CFG_GetControlMode (c : Config) : DS_ControlMode := control_mode c.
Definition CFG_GetAlliance (c : Config) : DS_Alliance := alliance c.
Definition CFG_GetPosition (c : Config) : DS_Position := position c.
Definition CFG_GetRobotEnabled (c : Config) : bool := robot_enabled c.
Definition CFG_GetEmergencyStopped (c : Config) : bool := emergency_stopped c.
Definition CFG_GetFMSCommunications (c : Config) : bool := fms_comms c.
Definition CFG_GetRadioCommunications (c : Config) : bool := radio_comms c.
Definition CFG_GetRobotCommunications (c : Config) : bool := robot_comms c.
Definition CFG_GetRobotVoltage (c : Config) : double := robot_voltage c.

(** Modelled from the spec: the mutators of DS_Config, each a write of
    its own field (boolean fields store whether the [int] argument is
    non-zero). *)
Definition CFG_SetControlMode (m : DS_ControlMode) (c : Config) : Config :=
  mkConfig (team_number c) m (alliance c) (position c) (robot_enabled c)
    (emergency_stopped c) (fms_comms c) (radio_comms c) (robot_comms c)
    (robot_code c) (robot_voltage c) (robot_cpu_usage c) (robot_ram_usage c)
    (robot_disk_usage c) (can_utilization c).

Definition CFG_SetAlliance (a : DS_Alliance) (c : Config) : Config :=
  mkConfig (team_number c) (control_mode c) a (position c) (robot_enabled c)
    (emergency_stopped c) (fms_comms c) (radio_comms c) (robot_comms c)
    (robot_code c) (robot_voltage c) (robot_cpu_usage c) (robot_ram_usage c)
    (robot_disk_usage c) (can_utilization c).

Definition CFG_SetPosition (p : DS_Position) (c : Config) : Config :=
  mkConfig (team_number c) (control_mode c) (alliance c) p (robot_enabled c)
    (emergency_stopped c) (fms_comms c) (radio_comms c) (robot_comms c)
    (robot_code c) (robot_voltage c) (robot_cpu_usage c) (robot_ram_usage c)
    (robot_disk_usage c) (can_utilization c).

Definition CFG_SetRobotEnabled (enabled : Z) (c : Config) : Config :=
  mkConfig (team_number c) (control_mode c) (alliance c) (position c)
    (truthy enabled) (emergency_stopped c) (fms_comms c) (radio_comms c)
    (robot_comms c) (robot_code c) (robot_voltage c) (robot_cpu_usage c)
    (robot_ram_usage c) (robot_disk_usage c) (can_utilization c).

Definition CFG_SetEmergencyStopped (stopped : Z) (c : Config) : Config :=
  mkConfig (team_number c) (control_mode c) (alliance c) (position c)
    (robot_enabled c) (truthy stopped) (fms_comms c) (radio_comms c)
    (robot_comms c) (robot_code c) (robot_voltage c) (robot_cpu_usage c)
    (robot_ram_usage c) (robot_disk_usage c) (can_utilization c).

Definition CFG_SetRobotCode (code : Z) (c : Config) : Config :=
  mkConfig (team_number c) (control_mode c) (alliance c) (position c)
    (robot_enabled c) (emergency_stopped c) (fms_comms c) (radio_comms c)
    (robot_comms c) (truthy code) (robot_voltage c) (robot_cpu_usage c)
    (robot_ram_usage c) (robot_disk_usage c) (can_utilization c).

Definition CFG_SetRobotVoltage (v : double) (c : Config) : Config :=
  mkConfig (team_number c) (control_mode c) (alliance c) (position c)
    (robot_enabled c) (emergency_stopped c) (fms_comms c) (radio_comms c)
    (robot_comms c) (robot_code c) v (robot_cpu_usage c) (robot_ram_usage c)
    (robot_disk_usage c) (can_utilization c).

Definition CFG_SetRobotCPUUsage (u : Z) (c : Config) : Config :=
  mkConfig (team_number c) (control_mode c) (alliance c) (position c)
    (robot_enabled c) (emergency_stopped c) (fms_comms c) (radio_comms c)
    (robot_comms c) (robot_code c) (robot_voltage c) u (robot_ram_usage c)
    (robot_disk_usage c) (can_utilization c).

Definition CFG_SetRobotRAMUsage (u : Z) (c : Config) : Config :=
  mkConfig (team_number c) (control_mode c) (alliance c) (position c)
    (robot_enabled c) (emergency_stopped c) (fms_comms c) (radio_comms c)
    (robot_comms c) (robot_code c) (robot_voltage c) (robot_cpu_usage c) u
    (robot_disk_usage c) (can_utilization c).

Definition CFG_SetRobotDiskUsage (u : Z) (c : Config) : Config :=
  mkConfig (team_number c) (control_mode c) (alliance c) (position c)
    (robot_enabled c) (emergency_stopped c) (fms_comms c) (radio_comms c)
    (robot_comms c) (robot_code c) (robot_voltage c) (robot_cpu_usage c)
    (robot_ram_usage c) u (can_utilization c).

Definition CFG_SetCANUtilization (u : Z) (c : Config) : Config :=
  mkConfig (team_number c) (control_mode c) (alliance c) (position c)
    (robot_enabled c) (emergency_stopped c) (fms_comms c) (radio_comms c)
    (robot_comms c) (robot_code c) (robot_voltage c) (robot_cpu_usage c)
    (robot_ram_usage c) (robot_disk_usage c) u.

(** ** The protocol descriptor (DS_Protocol)

    The functions a codec publishes to the scheduler, as the calls the
    scheduler can make, and what a call hands back. *)

Inductive Call : Type :=
| CreateFmsPacket
| CreateRadioPacket
| CreateRobotPacket
| ReadFmsPacket (data : datagram)
| ReadRadioPacket (data : datagram)
| ReadRobotPacket (data : datagram)
| ResetFms
| ResetRadio
| ResetRobot
| RebootRobot
| RestartRobotCode.

Inductive Reply : Type :=
| Packet (data : sds)
| Status (consumed : Z)
| Done.

(** What happens to a codec between two packets: the scheduler makes a
    call, or another component (user interface, watchdogs) rewrites the
    configuration registry. *)
Inductive Event : Type :=
| Invoke (c : Call)
| Reconfigure (cfg : Config).

(** The two bytes of a packet index, read back big-endian. *)
Definition packet_index (p : sds) : Z := sds_at p 0 * 0x100 + sds_at p 1.

(** A datagram the parsers turn away: the null pointer, or fewer than
    [min] bytes. *)
Definition too_short (min : Z) (d : datagram) : Prop :=
  match d with
  | None => True
  | Some data => sdslen data < min
  end.

(** * The 2014 codec *)

Module FRC2014.

(** Protocol bytes *)
Definition cEnabled : Z := 0x20.
Definition cTestMode : Z := 0x02.
Definition cAutonomous : Z := 0x10.
Definition cTeleoperated : Z := 0x00.
Definition cFMS_Attached : Z := 0x08.
Definition cResyncComms : Z := 0x04.
Definition cRebootRobot : Z := 0x80.
Definition cEmergencyStopOn : Z := 0x00.
Definition cEmergencyStopOff : Z := 0x40.
Definition cPosition1 : Z := 0x31.
Definition cPosition2 : Z := 0x32.
Definition cPosition3 : Z := 0x33.
Definition cAllianceRed : Z := 0x52.
Definition cAllianceBlue : Z := 0x42.
Definition cFMSAutonomous : Z := 0x53.
Definition cFMSTeleoperated : Z := 0x43.

(** CRC32 code (never written) *)
Definition crc32 : Z := 0.

(** Joystick properties *)
Definition max_axes : Z := 6.
Definition max_hats : Z := 0.
Definition max_buttons : Z := 10.
Definition max_joysticks : Z := 4.

(** The mutable statics of frc_2014.c: the sent robot packet counter
    ([unsigned int]) and the control code flags ([int]). *)
Record State : Type := mkState {
  sent_robot_packets : Z;
  resync : Z;
  reboot : Z;
  restart_code : Z
}.

Definition initial_state : State := mkState 0 0 0 0.

Definition get_alliance (byte : Z) : DS_Alliance :=
  if byte =? cAllianceRed then DS_ALLIANCE_RED else DS_ALLIANCE_BLUE.

Definition get_position (byte : Z) : DS_Position :=
  if byte =? cPosition1 then DS_POSITION_1
  else if byte =? cPosition2 then DS_POSITION_2
  else if byte =? cPosition3 then DS_POSITION_3
  else DS_POSITION_1.

(** [get_control_code].  The [default:] arm of the switch is not
    reachable with a control mode of the enumeration. *)
Definition get_control_code (cfg : Config) (st : State) : Z :=
  let code := cEmergencyStopOff in
  let enabled := if CFG_GetRobotEnabled cfg then cEnabled else 0x00 in
  let code :=
    match CFG_GetControlMode cfg with
    | DS_CONTROL_TEST => uint8 (Z.lor code (enabled + cTestMode))
    | DS_CONTROL_AUTONOMOUS => uint8 (Z.lor code (enabled + cAutonomous))
    | DS_CONTROL_TELEOPERATED => uint8 (Z.lor code (enabled + cTeleoperated))
    end in
  let code := if truthy (resync st) then uint8 (Z.lor code cResyncComms) else code in
  let code := if CFG_GetFMSCommunications cfg then uint8 (Z.lor code cFMS_Attached) else code in
  let code := if CFG_GetEmergencyStopped cfg then cEmergencyStopOn else code in
  let code := if truthy (reboot st) then cRebootRobot else code in
  code.

Definition get_alliance_code (cfg : Config) : Z :=
  match CFG_GetAlliance cfg with
  | DS_ALLIANCE_RED => cAllianceRed
  | DS_ALLIANCE_BLUE => cAllianceBlue
  end.

Definition get_position_code (cfg : Config) : Z :=
  match CFG_GetPosition cfg with
  | DS_POSITION_1 => cPosition1
  | DS_POSITION_2 => cPosition2
  | DS_POSITION_3 => cPosition3
  end.

Definition get_digital_inputs : Z := 0x00.

Definition create_fms_packet : sds := sdsempty.

Definition create_radio_packet : sds := sdsempty.

Section Codec.

(** The joystick registry (DS_Joysticks) and the helpers of DS_Utils the
    robot packet is built with; [sizeof_pointer] is [sizeof (data)], the
    size of an sds handle. *)
Variable DS_GetJoystickAxis : Z -> Z -> double.
Variable DS_GetJoystickButton : Z -> Z -> Z.
Variable DS_GetFByte : double -> double -> Z.
Variable DS_CRC32 : Z -> sds -> Z -> Z.
Variable sizeof_pointer : Z.

Definition get_joystick_data : sds :=
  for_loop max_joysticks (fun i buf =>
    let buf :=
      for_loop max_axes (fun j buf =>
        DS_Append buf (DS_GetFByte (DS_GetJoystickAxis i j) (double_of_int 1))) buf in
    let button_flags :=
      for_loop max_buttons (fun j flags =>
        uint16 (flags + (if truthy (DS_GetJoystickButton i j) then 2 ^ j else 0))) 0 in
    let buf := DS_Append buf (Z.shiftr (Z.land button_flags 0xff00) 8) in
    DS_Append buf (Z.land button_flags 0xff)) sdsempty.

Definition create_robot_packet (cfg : Config) (st : State) : sds * State :=
  let data := sdsnewlen_null 8 in
  let data := sds_set 0 (Z.shiftr (Z.land (sent_robot_packets st) 0xff00) 8) data in
  let data := sds_set 1 (Z.land (sent_robot_packets st) 0xff) data in
  let data := sds_set 2 (get_control_code cfg st) data in
  let data := sds_set 3 get_digital_inputs data in
  let data := sds_set 4 (Z.shiftr (Z.land (CFG_GetTeamNumber cfg) 0xff00) 8) data in
  let data := sds_set 5 (Z.land (CFG_GetTeamNumber cfg) 0xff) data in
  let data := sds_set 6 (get_alliance_code cfg) data in
  let data := sds_set 7 (get_position_code cfg) data in
  let data := sdscatsds data get_joystick_data in
  let data := sdsgrowzero data 1024 in
  let data := sds_set 72 0x30 data in
  let data := sds_set 73 0x34 data in
  let data := sds_set 74 0x30 data in
  let data := sds_set 75 0x31 data in
  let data := sds_set 76 0x31 data in
  let data := sds_set 77 0x36 data in
  let data := sds_set 78 0x30 data in
  let data := sds_set 79 0x30 data in
  let checksum := uint8 (DS_CRC32 crc32 data sizeof_pointer) in
  let data := sds_set 1020 (Z.shiftr (Z.land checksum 0xff000000) 24) data in
  let data := sds_set 1021 (Z.shiftr (Z.land checksum 0xff0000) 16) data in
  let data := sds_set 1022 (Z.shiftr (Z.land checksum 0xff00) 8) data in
  let data := sds_set 1023 (Z.land checksum 0xff) data in
  (data,
   mkState (uint (sent_robot_packets st + 1)) (resync st) (reboot st) (restart_code st)).

Definition read_fms_packet (data : datagram) (cfg : Config) : Z * Config :=
  match data with
  | None => (0, cfg)
  | Some data =>
      if sdslen data <? 5 then (0, cfg)
      else
        let robotmod := sds_at data 2 in
        let alliance := sds_at data 3 in
        let position := sds_at data 4 in
        let cfg :=
          if truthy (Z.land robotmod cFMSAutonomous)
          then CFG_SetControlMode DS_CONTROL_AUTONOMOUS cfg else cfg in
        let cfg :=
          if truthy (Z.land robotmod cFMSTeleoperated)
          then CFG_SetControlMode DS_CONTROL_TELEOPERATED cfg else cfg in
        let cfg := CFG_SetRobotEnabled (Z.land robotmod cEnabled) cfg in
        let cfg := CFG_SetAlliance (get_alliance alliance) cfg in
        let cfg := CFG_SetPosition (get_position position) cfg in
        (1, cfg)
  end.

Definition read_radio_packet (data : datagram) : Z := 0.

Definition read_robot_packet (data : datagram) (cfg : Config) : Z * Config :=
  match data with
  | None => (0, cfg)
  | Some data =>
      if sdslen data <? 1024 then (0, cfg)
      else
        let upper := uint8 (sds_at data 1 * 12 / 0x12) in
        let lower := uint8 (sds_at data 2 * 12 / 0x12) in
        let voltage :=
          (double_of_int upper + double_of_int lower / double_of_int 0xff)%float in
        let cfg := CFG_SetRobotVoltage voltage cfg in
        let cfg :=
          CFG_SetEmergencyStopped (of_bool (sds_at data 0 =? cEmergencyStopOn)) cfg in
        let cfg := CFG_SetRobotCode 1 cfg in
        (1, cfg)
  end.

Definition reset_fms (st : State) : State := st.

Definition reset_radio (st : State) : State := st.

Definition reset_robot (st : State) : State :=
  mkState (sent_robot_packets st) 1 0 0.

Definition reboot_robot (st : State) : State :=
  mkState (sent_robot_packets st) (resync st) 1 (restart_code st).

Definition restart_robot_code (st : State) : State :=
  mkState (sent_robot_packets st) (resync st) (reboot st) 1.

(** The function table filled in by [DS_GetProtocolFRC_2014]. *)
Definition call (c : Call) (w : Config * State) : Reply * (Config * State) :=
  let (cfg, st) := w in
  match c with
  | CreateFmsPacket => (Packet create_fms_packet, w)
  | CreateRadioPacket => (Packet create_radio_packet, w)
  | CreateRobotPacket =>
      let (p, st') := create_robot_packet cfg st in (Packet p, (cfg, st'))
  | ReadFmsPacket data =>
      let (r, cfg') := read_fms_packet data cfg in (Status r, (cfg', st))
  | ReadRadioPacket data => (Status (read_radio_packet data), w)
  | ReadRobotPacket data =>
      let (r, cfg') := read_robot_packet data cfg in (Status r, (cfg', st))
  | ResetFms => (Done, (cfg, reset_fms st))
  | ResetRadio => (Done, (cfg, reset_radio st))
  | ResetRobot => (Done, (cfg, reset_robot st))
  | RebootRobot => (Done, (cfg, reboot_robot st))
  | RestartRobotCode => (Done, (cfg, restart_robot_code st))
  end.

Definition step (e : Event) (w : Config * State) : Config * State :=
  match e with
  | Invoke c => snd (call c w)
  | Reconfigure cfg => (cfg, snd w)
  end.

(** The codec after a sequence of events, oldest first. *)
Definition run (es : list Event) (w : Config * State) : Config * State :=
  fold_left (fun w e => step e w) es w.

End Codec.

(** *** The control byte, in closed form *)

(** The mode bits of the control byte. *)
Definition mode_bits (m : DS_ControlMode) : Z :=
  match m with
  | DS_CONTROL_TEST => 0x02
  | DS_CONTROL_AUTONOMOUS => 0x10
  | DS_CONTROL_TELEOPERATED => 0x00
  end.

(** The control byte when neither override applies. *)
Definition plain_control_code (cfg : Config) (st : State) : Z :=
  Z.lor (Z.lor (Z.lor (Z.lor 0x40 (mode_bits (control_mode cfg)))
                  (if robot_enabled cfg then 0x20 else 0))
           (if truthy (resync st) then 0x04 else 0))
    (if fms_comms cfg then 0x08 else 0).

(** The state with another value of the [restart_code] flag. *)
Definition with_restart_code (x : Z) (st : State) : State :=
  mkState (sent_robot_packets st) (resync st) (reboot st) x.

(** *** Scenarios *)

(** Every field of the scenario "idle teleoperated, team 3794, red 1,
    enabled, nothing pending, no FMS, first packet". *)
Definition idle_teleop_3794 (cfg : Config) (st : State) : Prop :=
  control_mode cfg = DS_CONTROL_TELEOPERATED /\ team_number cfg = 3794 /\
  alliance cfg = DS_ALLIANCE_RED /\ position cfg = DS_POSITION_1 /\
  robot_enabled cfg = true /\ emergency_stopped cfg = false /\
  fms_comms cfg = false /\
  resync st = 0 /\ reboot st = 0 /\ restart_code st = 0 /\
  sent_robot_packets st = 0.

(** A configuration of that scenario. *)
Definition idle_config : Config :=
  mkConfig 3794 DS_CONTROL_TELEOPERATED DS_ALLIANCE_RED DS_POSITION_1
    true false false false false false 0%float 0 0 0 0.

(** A full-size reply with voltage bytes 0x12 and 0x14. *)
Definition reply_12_14 : sds := [0x40; 0x12; 0x14] ++ replicate 1021 0.

End FRC2014.

(** * The 2015 codec *)

Module FRC2015.

(** Protocol bytes *)
Definition cTest : Z := 0x01.
Definition cEnabled : Z := 0x04.
Definition cAutonomous : Z := 0x02.
Definition cTeleoperated : Z := 0x00.
Definition cFMS_Attached : Z := 0x08.
Definition cEmergencyStop : Z := 0x80.
Definition cRequestReboot : Z := 0x08.
Definition cRequestNormal : Z := 0x80.
Definition cRequestUnconnected : Z := 0x00.
Definition cRequestRestartCode : Z := 0x04.
Definition cFMS_RadioPing : Z := 0x10.
Definition cFMS_RobotPing : Z := 0x08.
Definition cFMS_RobotComms : Z := 0x20.
Definition cFMS_DS_Version : Z := 0x00.
Definition cTagDate : Z := 0x0f.
Definition cTagGeneral : Z := 0x01.
Definition cTagJoystick : Z := 0x0c.
Definition cTagTimezone : Z := 0x10.
Definition cRed1 : Z := 0x00.
Definition cRed2 : Z := 0x01.
Definition cRed3 : Z := 0x02.
Definition cBlue1 : Z := 0x03.
Definition cBlue2 : Z := 0x04.
Definition cBlue3 : Z := 0x05.
Definition cRTagCANInfo : Z := 0x0e.
Definition cRTagCPUInfo : Z := 0x05.
Definition cRTagRAMInfo : Z := 0x06.
Definition cRTagDiskInfo : Z := 0x04.
Definition cRequestTime : Z := 0x01.
Definition cRobotHasCode : Z := 0x20.

(** The mutable statics of frc_2015.c: the time-request flag and the
    two packet counters ([unsigned int]), and the control code flags
    ([int]). *)
Record State : Type := mkState {
  send_time_data : Z;
  sent_fms_packets : Z;
  sent_robot_packets : Z;
  reboot : Z;
  restart_code : Z
}.

Definition initial_state : State := mkState 0 0 0 0 0.

Definition decode_voltage (upper lower : Z) : double :=
  (double_of_int upper + double_of_int lower / double_of_int 0xff)%float.

(** [encode_voltage]: the pair of bytes written through [upper] and
    [lower] (both pointers are valid at its one call site).  In the
    second, the cast to [uint8_t] applies to the difference, and the
    product with 100 is stored into the byte.  The casts are defined in
    C for a voltage whose integer part fits the target type, from 0 up
    to 256 for the first byte. *)
Definition encode_voltage (voltage : double) : Z * Z :=
  (uint8 (int_of_double voltage),
   uint8 (uint8 (int_of_double
                   (voltage - double_of_int (int_of_double voltage))%float) * 100)).

Definition fms_control_code (cfg : Config) : Z :=
  let code := 0 in
  let code :=
    match CFG_GetControlMode cfg with
    | DS_CONTROL_TEST => uint8 (Z.lor code cTest)
    | DS_CONTROL_AUTONOMOUS => uint8 (Z.lor code cAutonomous)
    | DS_CONTROL_TELEOPERATED => uint8 (Z.lor code cTeleoperated)
    end in
  let code := if CFG_GetEmergencyStopped cfg then uint8 (Z.lor code cEmergencyStop) else code in
  let code := if CFG_GetRobotEnabled cfg then uint8 (Z.lor code cEnabled) else code in
  let code := if CFG_GetRadioCommunications cfg then uint8 (Z.lor code cFMS_RadioPing) else code in
  let code :=
    if CFG_GetRobotCommunications cfg
    then uint8 (Z.lor (uint8 (Z.lor code cFMS_RobotComms)) cFMS_RobotPing)
    else code in
  code.

Definition get_control_code (cfg : Config) : Z :=
  let code := 0 in
  let code :=
    match CFG_GetControlMode cfg with
    | DS_CONTROL_TEST => uint8 (Z.lor code cTest)
    | DS_CONTROL_AUTONOMOUS => uint8 (Z.lor code cAutonomous)
    | DS_CONTROL_TELEOPERATED => uint8 (Z.lor code cTeleoperated)
    end in
  let code := if CFG_GetFMSCommunications cfg then uint8 (Z.lor code cFMS_Attached) else code in
  let code := if CFG_GetEmergencyStopped cfg then uint8 (Z.lor code cEmergencyStop) else code in
  let code := if CFG_GetRobotEnabled cfg then uint8 (Z.lor code cEnabled) else code in
  code.

Definition get_request_code (cfg : Config) (st : State) : Z :=
  let code := cRequestNormal in
  if CFG_GetRobotCommunications cfg then
    if truthy (reboot st) then cRequestReboot
    else if truthy (restart_code st) then cRequestRestartCode
    else code
  else cRequestUnconnected.

Definition get_station_code (cfg : Config) : Z :=
  match CFG_GetPosition cfg, CFG_GetAlliance cfg with
  | DS_POSITION_1, DS_ALLIANCE_RED => cRed1
  | DS_POSITION_1, DS_ALLIANCE_BLUE => cBlue1
  | DS_POSITION_2, DS_ALLIANCE_RED => cRed2
  | DS_POSITION_2, DS_ALLIANCE_BLUE => cBlue2
  | DS_POSITION_3, DS_ALLIANCE_RED => cRed3
  | DS_POSITION_3, DS_ALLIANCE_BLUE => cBlue3
  end.

(** [read_extended], for the valid buffer it is called on.  The block
    at [offset] is recognised by the tag that follows its size byte;
    the values handed to the registry are read as unsigned bytes. *)
Definition read_extended (data : sds) (offset : nat) (cfg : Config) : Config :=
  let tag := sds_at data (offset + 1) in
  if tag =? cRTagCANInfo then CFG_SetCANUtilization (sds_at data 10) cfg
  else if tag =? cRTagCPUInfo then CFG_SetRobotCPUUsage (sds_at data 3) cfg
  else if tag =? cRTagRAMInfo then CFG_SetRobotRAMUsage (sds_at data 4) cfg
  else if tag =? cRTagDiskInfo then CFG_SetRobotDiskUsage (sds_at data 4) cfg
  else cfg.

Definition get_alliance (byte : Z) : DS_Alliance :=
  if (byte =? cBlue1) || (byte =? cBlue2) || (byte =? cBlue3)
  then DS_ALLIANCE_BLUE else DS_ALLIANCE_RED.

Definition get_position (byte : Z) : DS_Position :=
  if (byte =? cRed1) || (byte =? cBlue1) then DS_POSITION_1
  else if (byte =? cRed2) || (byte =? cBlue2) then DS_POSITION_2
  else if (byte =? cRed3) || (byte =? cBlue3) then DS_POSITION_3
  else DS_POSITION_1.

Definition create_fms_packet (cfg : Config) (st : State) : sds * State :=
  let data := sdsnewlen_null 8 in
  let '(integer, decimal) := encode_voltage (CFG_GetRobotVoltage cfg) in
  let data := sds_set 0 (Z.shiftr (Z.land (sent_fms_packets st) 0xff00) 8) data in
  let data := sds_set 1 (Z.land (sent_fms_packets st) 0xff) data in
  let data := sds_set 2 cFMS_DS_Version data in
  let data := sds_set 3 (fms_control_code cfg) data in
  let data := sds_set 4 (Z.shiftr (Z.land (CFG_GetTeamNumber cfg) 0xff00) 8) data in
  let data := sds_set 5 (Z.land (CFG_GetTeamNumber cfg) 0xff) data in
  let data := sds_set 6 integer data in
  let data := sds_set 7 decimal data in
  (data,
   mkState (send_time_data st) (uint (sent_fms_packets st + 1))
     (sent_robot_packets st) (reboot st) (restart_code st)).

Definition create_radio_packet : sds := sdsempty.

Definition read_fms_packet (data : datagram) (cfg : Config) : Z * Config :=
  match data with
  | None => (0, cfg)
  | Some data =>
      if sdslen data <? 22 then (0, cfg)
      else
        let control := sds_at data 3 in
        let station := sds_at data 5 in
        let cfg := CFG_SetRobotEnabled (Z.land control cEnabled) cfg in
        let cfg :=
          if truthy (Z.land control cTeleoperated)
          then CFG_SetControlMode DS_CONTROL_TELEOPERATED cfg
          else if truthy (Z.land control cAutonomous)
          then CFG_SetControlMode DS_CONTROL_AUTONOMOUS cfg
          else if truthy (Z.land control cTest)
          then CFG_SetControlMode DS_CONTROL_TEST cfg
          else cfg in
        let cfg := CFG_SetAlliance (get_alliance station) cfg in
        let cfg := CFG_SetPosition (get_position station) cfg in
        (1, cfg)
  end.

Definition read_radio_packet (data : datagram) : Z := 0.

Definition read_robot_packet (data : datagram) (cfg : Config) (st : State)
  : Z * (Config * State) :=
  match data with
  | None => (0, (cfg, st))
  | Some data =>
      if sdslen data <? 7 then (0, (cfg, st))
      else
        let control := sds_at data 3 in
        let rstatus := sds_at data 4 in
        let request := sds_at data 7 in
        let cfg := CFG_SetRobotCode (Z.land rstatus cRobotHasCode) cfg in
        let cfg := CFG_SetEmergencyStopped (Z.land control cEmergencyStop) cfg in
        let st :=
          mkState (of_bool (request =? cRequestTime)) (sent_fms_packets st)
            (sent_robot_packets st) (reboot st) (restart_code st) in
        let upper := sds_at data 5 in
        let lower := sds_at data 6 in
        let cfg := CFG_SetRobotVoltage (decode_voltage upper lower) cfg in
        let cfg := if 9 <? sdslen data then read_extended data 8 cfg else cfg in
        (1, (cfg, st))
  end.

Definition reset_fms (st : State) : State := st.

Definition reset_radio (st : State) : State := st.

Definition reset_robot (st : State) : State :=
  mkState 0 (sent_fms_packets st) (sent_robot_packets st) 0 0.

Definition reboot_robot (st : State) : State :=
  mkState (send_time_data st) (sent_fms_packets st) (sent_robot_packets st)
    1 (restart_code st).

Definition restart_robot_code (st : State) : State :=
  mkState (send_time_data st) (sent_fms_packets st) (sent_robot_packets st)
    (reboot st) 1.

(** Broken-down local time, the fields of [struct tm] the codec sends. *)
Record tm : Type := mkTm {
  tm_sec : Z;
  tm_min : Z;
  tm_hour : Z;
  tm_yday : Z;
  tm_mon : Z;
  tm_year : Z
}.

Section Codec.

(** The joystick registry (DS_Joysticks), [DS_GetFByte] of DS_Utils, and
    what the C library reports to [get_timezone_data]: the result of
    [localtime] and the name of the time zone. *)
Variable DS_GetJoystickCount : Z.
Variable DS_GetJoystickNumAxes : Z -> Z.
Variable DS_GetJoystickNumButtons : Z -> Z.
Variable DS_GetJoystickNumHats : Z -> Z.
Variable DS_GetJoystickAxis : Z -> Z -> double.
Variable DS_GetJoystickButton : Z -> Z -> Z.
Variable DS_GetJoystickHat : Z -> Z -> Z.
Variable DS_GetFByte : double -> double -> Z.
Variable timeinfo : tm.
Variable tz : sds.

Definition get_joystick_size (joystick : Z) : Z :=
  let header_size := 2 in
  let button_data := 3 in
  let axis_data := DS_GetJoystickNumAxes joystick + 1 in
  let hat_data := DS_GetJoystickNumHats joystick * 2 + 1 in
  uint8 (header_size + button_data + axis_data + hat_data).

Definition get_timezone_data : sds :=
  let data := sdsnewlen_null 12 in
  let data := sds_set 0 0x0b data in
  let data := sds_set 1 cTagDate data in
  let data := sds_set 2 0 data in
  let data := sds_set 3 0 data in
  let data := sds_set 4 (tm_sec timeinfo) data in
  let data := sds_set 5 (tm_min timeinfo) data in
  let data := sds_set 6 (tm_hour timeinfo) data in
  let data := sds_set 7 (tm_yday timeinfo) data in
  let data := sds_set 8 (tm_mon timeinfo) data in
  let data := sds_set 9 (tm_year timeinfo) data in
  let data := sds_set 10 (sdslen tz) data in
  let data := sds_set 11 cTagTimezone data in
  sdscatsds data tz.

Definition get_joystick_data : sds :=
  for_loop DS_GetJoystickCount (fun i data =>
    let data := DS_Append data (get_joystick_size i) in
    let data := DS_Append data cTagJoystick in
    let data := DS_Append data (DS_GetJoystickNumAxes i) in
    let data :=
      for_loop (DS_GetJoystickNumAxes i) (fun j data =>
        DS_Append data (DS_GetFByte (DS_GetJoystickAxis i j) (double_of_int 1))) data in
    let button_flags :=
      for_loop (DS_GetJoystickNumButtons i) (fun j flags =>
        uint16 (flags + (if truthy (DS_GetJoystickButton i j) then 2 ^ j else 0))) 0 in
    let data := DS_Append data (DS_GetJoystickNumButtons i) in
    let data := DS_Append data (Z.shiftr (Z.land button_flags 0xff00) 8) in
    let data := DS_Append data (Z.land button_flags 0xff) in
    let data := DS_Append data (DS_GetJoystickNumHats i) in
    for_loop (DS_GetJoystickNumHats i) (fun j data =>
      let data := DS_Append data (Z.shiftr (Z.land (DS_GetJoystickHat i j) 0xff00) 8) in
      DS_Append data (Z.land (DS_GetJoystickHat i j) 0xff)) data) sdsempty.

Definition create_robot_packet (cfg : Config) (st : State) : sds * State :=
  let data := sdsnewlen_null 6 in
  let data := sds_set 0 (Z.shiftr (Z.land (sent_robot_packets st) 0xff00) 8) data in
  let data := sds_set 1 (Z.land (sent_robot_packets st) 0xff) data in
  let data := sds_set 2 cTagGeneral data in
  let data := sds_set 3 (get_control_code cfg) data in
  let data := sds_set 4 (get_request_code cfg st) data in
  let data := sds_set 5 (get_station_code cfg) data in
  let data :=
    if truthy (send_time_data st) then sdscatsds data get_timezone_data
    else if 5 <? sent_robot_packets st then sdscatsds data get_joystick_data
    else data in
  (data,
   mkState (send_time_data st) (sent_fms_packets st)
     (uint (sent_robot_packets st + 1)) (reboot st) (restart_code st)).

(** The function table filled in by [DS_GetProtocolFRC_2015]. *)
Definition call (c : Call) (w : Config * State) : Reply * (Config * State) :=
  let (cfg, st) := w in
  match c with
  | CreateFmsPacket =>
      let (p, st') := create_fms_packet cfg st in (Packet p, (cfg, st'))
  | CreateRadioPacket => (Packet create_radio_packet, w)
  | CreateRobotPacket =>
      let (p, st') := create_robot_packet cfg st in (Packet p, (cfg, st'))
  | ReadFmsPacket data =>
      let (r, cfg') := read_fms_packet data cfg in (Status r, (cfg', st))
  | ReadRadioPacket data => (Status (read_radio_packet data), w)
  | ReadRobotPacket data =>
      let (r, w') := read_robot_packet data cfg st in (Status r, w')
  | ResetFms => (Done, (cfg, reset_fms st))
  | ResetRadio => (Done, (cfg, reset_radio st))
  | ResetRobot => (Done, (cfg, reset_robot st))
  | RebootRobot => (Done, (cfg, reboot_robot st))
  | RestartRobotCode => (Done, (cfg, restart_robot_code st))
  end.

Definition step (e : Event) (w : Config * State) : Config * State :=
  match e with
  | Invoke c => snd (call c w)
  | Reconfigure cfg => (cfg, snd w)
  end.

(** The codec after a sequence of events, oldest first. *)
Definition run (es : list Event) (w : Config * State) : Config * State :=
  fold_left (fun w e => step e w) es w.

End Codec.

(** *** Scenarios *)

(** The reply quoted in the comment of [read_robot_packet]. *)
Definition quoted_reply : sds := [0x00; 0x51; 0x01; 0x00; 0x31; 0x00; 0x01; 0x00].

(** A configuration and statics to run the examples from. *)
Definition sample_config : Config :=
  mkConfig 3794 DS_CONTROL_TELEOPERATED DS_ALLIANCE_RED DS_POSITION_1
    true false false false true false 12.5%float 0 0 0 0.

Definition sample_state : State := mkState 0 7 0 0 0.

(** The scenario of the FMS packet example: 12.5 V, FMS counter 7,
    enabled and not stopped, teleoperated, robot communications but no
    radio communications, team 3794. *)
Definition fms_scenario (cfg : Config) (st : State) : Prop :=
  robot_voltage cfg = 12.5%float /\ sent_fms_packets st = 7 /\
  robot_enabled cfg = true /\ emergency_stopped cfg = false /\
  control_mode cfg = DS_CONTROL_TELEOPERATED /\
  robot_comms cfg = true /\ radio_comms cfg = false /\
  team_number cfg = 3794.

End FRC2015.

(** * A concrete driver station *)

(** A driver station without joysticks, whose clock reads the epoch in
    UTC, on a machine with 8-byte pointers; the checksum function is a
    stand-in. *)
Definition no_axis : Z -> Z -> double := fun _ _ => 0%float.
Definition no_button : Z -> Z -> Z := fun _ _ => 0.
Definition no_fbyte : double -> double -> Z := fun _ _ => 0.
Definition no_crc : Z -> sds -> Z -> Z := fun _ _ _ => 0.
Definition no_count : Z -> Z := fun _ => 0.
Definition epoch : FRC2015.tm := FRC2015.mkTm 0 0 0 0 0 70.
Definition utc : sds := [0x55; 0x54; 0x43].

Definition station_build14 :=
  FRC2014.create_robot_packet no_axis no_button no_fbyte no_crc 8.
Definition station_call14 := FRC2014.call no_axis no_button no_fbyte no_crc 8.
Definition station_run14 := FRC2014.run no_axis no_button no_fbyte no_crc 8.
Definition station_build15 :=
  FRC2015.create_robot_packet 0 no_count no_count no_count no_axis no_button
    no_button no_fbyte epoch utc.
Definition station_call15 :=
  FRC2015.call 0 no_count no_count no_count no_axis no_button no_button
    no_fbyte epoch utc.
Definition station_run15 :=
  FRC2015.run 0 no_count no_count no_count no_axis no_button no_button
    no_fbyte epoch utc.

(** A stretch of activity between two packets: a null robot datagram, a
    change of configuration, a packet to the radio, an FMS watchdog
    reset. *)
Definition interlude : list Event :=
  [ Invoke (ReadRobotPacket None);
    Reconfigure FRC2015.sample_config;
    Invoke CreateRadioPacket;
    Invoke ResetFms ].

(** What follows a one-shot request in the examples: more packets to the
    robot, a short datagram, a change of configuration. *)
Definition aftermath : list Event :=
  [ Invoke CreateRobotPacket;
    Invoke (ReadRobotPacket (Some [0x00; 0x01; 0x02]));
    Reconfigure FRC2015.sample_config;
    Invoke CreateRobotPacket ].

(** * Addresses of the 2015 codec *)

Module FRC2015Addresses.

(** Modelled from the spec: [sdscatprintf] of the sds library, which
    appends to a string the text that C's [printf] produces for a format;
    the spec gives the result as "roboRIO-<team>.local".  [%d] prints an
    [int] as its decimal numeral, with a minus sign when negative, which
    is what [pretty] does on [Z].

    [robot_address]: the team number printed with [%d] into
    ["roboRIO-%d.local"], appended to the empty string. *)
Definition robot_address (cfg : Config) : string :=
  "roboRIO-" +:+ (pretty (CFG_GetTeamNumber cfg) +:+ ".local").

End FRC2015Addresses.

(** * Notions for stating further properties *)

(** The calls that build a packet for the robot, and for the FMS. *)
Definition is_create_robot (c : Call) : bool :=
  match c with CreateRobotPacket => true | _ => false end.

Definition is_create_fms (c : Call) : bool :=
  match c with CreateFmsPacket => true | _ => false end.

(** How many of the events are calls picked out by [sel]. *)
Definition count_calls (sel : Call -> bool) (es : list Event) : Z :=
  Z.of_nat
    (length
       (List.filter (fun e => match e with Invoke c => sel c | _ => false end) es)).

(** The button word both codecs accumulate for a joystick with [n]
    buttons: the loop over the buttons of [get_joystick_data]. *)
Definition button_flags (pressed : Z -> Z) (n : Z) : Z :=
  for_loop n (fun j flags =>
    uint16 (flags + (if truthy (pressed j) then 2 ^ j else 0))) 0.

(** The eight bytes one joystick takes in a 2014 robot packet. *)
Definition joystick_block_2014
    (axis : Z -> Z -> double) (button : Z -> Z -> Z)
    (fbyte : double -> double -> Z) (i : Z) : sds :=
  map (fun j => uint8 (fbyte (axis i j) (double_of_int 1))) [0; 1; 2; 3; 4; 5]
  ++ [ uint8 (Z.shiftr (Z.land (button_flags (button i) 10) 0xff00) 8);
       uint8 (Z.land (button_flags (button i) 10) 0xff) ].

(** The bytes one attached joystick takes in a 2015 robot packet: size,
    tag, axis count and axes, button count and button word, hat count
    and hats. *)
Definition joystick_block_2015
    (num_axes num_buttons num_hats : Z -> Z)
    (axis : Z -> Z -> double) (button hat : Z -> Z -> Z)
    (fbyte : double -> double -> Z) (i : Z) : sds :=
  [ uint8 (7 + num_axes i + 2 * num_hats i); 0x0c; uint8 (num_axes i) ]
  ++ map (fun j => uint8 (fbyte (axis i (Z.of_nat j)) (double_of_int 1)))
       (seq 0 (Z.to_nat (num_axes i)))
  ++ [ uint8 (num_buttons i);
       uint8 (Z.shiftr (Z.land (button_flags (button i) (num_buttons i)) 0xff00) 8);
       uint8 (Z.land (button_flags (button i) (num_buttons i)) 0xff);
       uint8 (num_hats i) ]
  ++ concat
       (map (fun j =>
               [ uint8 (Z.shiftr (Z.land (hat i (Z.of_nat j)) 0xff00) 8);
                 uint8 (Z.land (hat i (Z.of_nat j)) 0xff) ])
          (seq 0 (Z.to_nat (num_hats i)))).

(** The two mode bits of the 2015 control bytes. *)
Definition mode_code_2015 (m : DS_ControlMode) : Z :=
  match m with
  | DS_CONTROL_TEST => 0x01
  | DS_CONTROL_AUTONOMOUS => 0x02
  | DS_CONTROL_TELEOPERATED => 0x00
  end.

(** A control flag as the codecs keep it: 0 or 1. *)
Definition is_flag (z : Z) : Prop := z = 0 \/ z = 1.

(** The statics of the 2014 codec as its own functions leave them. *)
Definition statics_in_range_2014 (st : FRC2014.State) : Prop :=
  0 <= FRC2014.sent_robot_packets st < 0x100000000
  /\ is_flag (FRC2014.resync st) /\ is_flag (FRC2014.reboot st)
  /\ is_flag (FRC2014.restart_code st).

(** The statics of the 2015 codec as its own functions leave them. *)
Definition statics_in_range_2015 (st : FRC2015.State) : Prop :=
  0 <= FRC2015.sent_fms_packets st < 0x100000000
  /\ 0 <= FRC2015.sent_robot_packets st < 0x100000000
  /\ is_flag (FRC2015.send_time_data st) /\ is_flag (FRC2015.reboot st)
  /\ is_flag (FRC2015.restart_code st).

(** A joystick with two axes, three buttons and one hat, whose buttons
    of odd number are pressed. *)
Definition two_axes : Z -> Z := fun _ => 2.
Definition three_buttons : Z -> Z := fun _ => 3.
Definition one_hat : Z -> Z := fun _ => 1.
Definition odd_pressed : Z -> Z -> Z := fun _ j => j mod 2.

(** * Properties *)

(** ** Facts about bytes and buffers *)

Lemma uint8_range z : 0 <= uint8 z < 0x100.
Proof. unfold uint8. apply Z.mod_pos_bound. lia. Qed.

Lemma uint8_small z : 0 <= z < 0x100 -> uint8 z = z.
Proof. intros H. unfold uint8. now apply Z.mod_small. Qed.

Lemma uint8_idem z : uint8 (uint8 z) = uint8 z.
Proof. apply uint8_small, uint8_range. Qed.

Lemma sds_set_length i v data : length (sds_set i v data) = length data.
Proof. unfold sds_set. apply length_insert. Qed.

Lemma sds_at_take n data i :
  (i < n)%nat -> sds_at (take n data) i = sds_at data i.
Proof.
  intros H. unfold sds_at. now rewrite !nth_lookup, lookup_take_lt.
Qed.

Lemma sdsgrowzero_length s n :
  (length s <= n)%nat -> length (sdsgrowzero s n) = n.
Proof.
  intros H. unfold sdsgrowzero. rewrite length_app, length_replicate. lia.
Qed.

(** On a double that is not negative, the conversion to an integer is
    the floor of its value. *)
Lemma int_of_double_floor (d : double) (q : Q) :
  double_value d = Some q -> (0 <= q)%Q -> int_of_double d = Qfloor q.
Proof.
  unfold double_value, int_of_double.
  destruct (Prim2SF d) as [s|s| |s m e]; try discriminate.
  - intros [= <-] _. reflexivity.
  - intros [= <-]. rewrite Qred_correct. intros Hq. destruct s.
    + exfalso. revert Hq. unfold Qle.
      destruct e as [|k|k]; cbn [Qopp Qnum Qden inject_Z]; lia.
    + destruct e as [|k|k]; cbn [Qfloor inject_Z].
      * cbn. now rewrite Z.div_1_r.
      * change (0 <=? Z.pos k) with true. cbv iota.
        now rewrite Z.shiftl_mul_pow2, Z.div_1_r by lia.
      * change (0 <=? Z.neg k) with false. cbv iota.
        change (- Z.neg k) with (Z.pos k).
        now rewrite Z.shiftr_div_pow2, Pos2Z.inj_pow by lia.
Qed.

Lemma byte_lo c : Z.land c 0xff = c mod 0x100.
Proof. change 0xff with (Z.ones 8). now rewrite Z.land_ones by lia. Qed.

Lemma byte_hi c : Z.shiftr (Z.land c 0xff00) 8 = (c / 0x100) mod 0x100.
Proof.
  rewrite Z.shiftr_land. change (Z.shiftr 0xff00 8) with (Z.ones 8).
  rewrite Z.land_ones, Z.shiftr_div_pow2 by lia. reflexivity.
Qed.

(** The two index bytes of a packet, high byte first, hold the low 16
    bits of the counter they were cut from. *)
Lemma index_bytes c :
  uint8 (Z.shiftr (Z.land c 0xff00) 8) * 0x100 + uint8 (Z.land c 0xff) = uint16 c.
Proof.
  rewrite byte_hi, byte_lo. unfold uint8, uint16.
  rewrite !Z.mod_mod by lia.
  change 0x10000 with (0x100 * 0x100).
  rewrite Z.rem_mul_r by lia. lia.
Qed.

Lemma uint16_uint_succ c : uint16 (uint (c + 1)) = (uint16 c + 1) mod 0x10000.
Proof.
  unfold uint16, uint.
  rewrite Z.mod_mod_divide by (now exists 0x10000).
  now rewrite Z.add_mod_idemp_l by lia.
Qed.

(** A range of integers is settled by running a test over it. *)
Lemma forall_below (n : nat) (f : Z -> bool) :
  forallb (fun k => f (Z.of_nat k)) (seq 0 n) = true ->
  forall z, 0 <= z < Z.of_nat n -> f z = true.
Proof.
  intros Hall z Hz.
  rewrite forallb_forall in Hall.
  rewrite <- (Z2Nat.id z) by lia.
  apply Hall, in_seq. lia.
Qed.

(** ** The 2014 codec *)

Module FRC2014Facts.

Import FRC2014.

(** *** The control byte *)

Lemma get_control_code_eq (cfg : Config) (st : State) :
  get_control_code cfg st =
    if truthy (reboot st) then 0x80
    else if emergency_stopped cfg then 0x00
    else plain_control_code cfg st.
Proof.
  unfold get_control_code, plain_control_code, CFG_GetRobotEnabled,
    CFG_GetControlMode, CFG_GetFMSCommunications, CFG_GetEmergencyStopped.
  destruct (truthy (reboot st)); [reflexivity|].
  destruct (emergency_stopped cfg); [reflexivity|].
  destruct (control_mode cfg), (robot_enabled cfg), (truthy (resync st)),
    (fms_comms cfg); reflexivity.
Qed.

Lemma get_control_code_byte (cfg : Config) (st : State) :
  uint8 (get_control_code cfg st) = get_control_code cfg st.
Proof.
  rewrite get_control_code_eq. unfold plain_control_code.
  destruct (truthy (reboot st)); [reflexivity|].
  destruct (emergency_stopped cfg); [reflexivity|].
  destruct (control_mode cfg), (robot_enabled cfg), (truthy (resync st)),
    (fms_comms cfg); reflexivity.
Qed.

(** *** The robot packet *)

Section RobotPacket.

Variable axis : Z -> Z -> double.
Variable button : Z -> Z -> Z.
Variable fbyte : double -> double -> Z.
Variable crc : Z -> sds -> Z -> Z.
Variable psize : Z.

Let build := create_robot_packet axis button fbyte crc psize.

Lemma joystick_data_length : length (get_joystick_data axis button fbyte) = 32%nat.
Proof. reflexivity. Qed.

Lemma robot_packet_length cfg st : length (fst (build cfg st)) = 1024%nat.
Proof.
  unfold build, create_robot_packet. cbv zeta. cbn [fst].
  rewrite !sds_set_length. apply sdsgrowzero_length.
  unfold sdscatsds. rewrite length_app, !sds_set_length, joystick_data_length.
  simpl. lia.
Qed.

Lemma robot_packet_header cfg st :
  take 8 (fst (build cfg st)) =
    [ uint8 (Z.shiftr (Z.land (sent_robot_packets st) 0xff00) 8);
      uint8 (Z.land (sent_robot_packets st) 0xff);
      uint8 (get_control_code cfg st);
      uint8 get_digital_inputs;
      uint8 (Z.shiftr (Z.land (CFG_GetTeamNumber cfg) 0xff00) 8);
      uint8 (Z.land (CFG_GetTeamNumber cfg) 0xff);
      uint8 (get_alliance_code cfg);
      uint8 (get_position_code cfg) ].
Proof. reflexivity. Qed.

Lemma robot_packet_version cfg st :
  take 8 (drop 72 (fst (build cfg st))) =
    [0x30; 0x34; 0x30; 0x31; 0x31; 0x36; 0x30; 0x30].
Proof. reflexivity. Qed.

Lemma robot_packet_counter cfg st :
  sent_robot_packets (snd (build cfg st)) = uint (sent_robot_packets st + 1).
Proof. reflexivity. Qed.

End RobotPacket.

(** *** The statics across calls *)

Section Calls.

Variable axis : Z -> Z -> double.
Variable button : Z -> Z -> Z.
Variable fbyte : double -> double -> Z.
Variable crc : Z -> sds -> Z -> Z.
Variable psize : Z.

Let build := create_robot_packet axis button fbyte crc psize.
Let call := call axis button fbyte crc psize.
Let run := run axis button fbyte crc psize.

Lemma robot_packet_index cfg st :
  packet_index (fst (build cfg st)) = uint16 (sent_robot_packets st).
Proof.
  unfold packet_index.
  rewrite <- !(sds_at_take 8 (fst (build cfg st))) by lia.
  subst build. rewrite robot_packet_header. unfold sds_at. cbn [nth].
  rewrite !uint8_idem. apply index_bytes.
Qed.

Lemma robot_packet_control cfg st :
  sds_at (fst (build cfg st)) 2 = get_control_code cfg st.
Proof.
  rewrite <- (sds_at_take 8) by lia.
  subst build. rewrite robot_packet_header. unfold sds_at. cbn [nth].
  rewrite uint8_idem. apply get_control_code_byte.
Qed.

Lemma build_with_restart_code x cfg st :
  build cfg (with_restart_code x st)
  = (fst (build cfg st), with_restart_code x (snd (build cfg st))).
Proof. reflexivity. Qed.

(** What each call of the descriptor does to the statics. *)
Lemma call_statics c cfg st :
  let st' := snd (snd (call c (cfg, st))) in
  sent_robot_packets st' =
    match c with
    | CreateRobotPacket => uint (sent_robot_packets st + 1)
    | _ => sent_robot_packets st
    end
  /\ resync st' = match c with ResetRobot => 1 | _ => resync st end
  /\ reboot st' =
       match c with ResetRobot => 0 | RebootRobot => 1 | _ => reboot st end
  /\ restart_code st' =
       match c with
       | ResetRobot => 0
       | RestartRobotCode => 1
       | _ => restart_code st
       end.
Proof.
  subst call. destruct c; cbn [FRC2014.call snd]; auto.
  - destruct (read_fms_packet data cfg); auto.
  - destruct (read_robot_packet data cfg); auto.
Qed.

Lemma run_cons e es w :
  run (e :: es) w = run es (step axis button fbyte crc psize e w).
Proof. reflexivity. Qed.

(** A property of the statics that every permitted call preserves holds
    after any sequence of permitted events: changes of the registry do
    not touch the statics. *)
Lemma run_invariant (permitted : Event -> Prop) (inv : State -> Prop) :
  (forall c cfg st,
     permitted (Invoke c) -> inv st -> inv (snd (snd (call c (cfg, st))))) ->
  forall es w, Forall permitted es -> inv (snd w) -> inv (snd (run es w)).
Proof.
  intros Hcall es w Hes. revert w.
  induction Hes as [|e es He _ IH]; intros w Hw; [exact Hw|].
  rewrite run_cons. apply IH. destruct e as [c|cfg']; [|exact Hw].
  destruct w as [cfg st]. now apply Hcall.
Qed.

Lemma run_keeps_counter es w :
  Forall (fun e => e <> Invoke CreateRobotPacket) es ->
  sent_robot_packets (snd (run es w)) = sent_robot_packets (snd w).
Proof.
  intros Hes.
  apply (run_invariant (fun e => e <> Invoke CreateRobotPacket)
           (fun st => sent_robot_packets st = sent_robot_packets (snd w)));
    [|exact Hes|reflexivity].
  intros c cfg st He Hinv.
  destruct (call_statics c cfg st) as (-> & _).
  destruct c; try exact Hinv. now contradiction He.
Qed.

Lemma run_keeps_reboot es w :
  Forall (fun e => e <> Invoke ResetRobot) es ->
  truthy (reboot (snd w)) = true ->
  truthy (reboot (snd (run es w))) = true.
Proof.
  apply (run_invariant (fun e => e <> Invoke ResetRobot)
           (fun st => truthy (reboot st) = true)).
  intros c cfg st He Hinv.
  destruct (call_statics c cfg st) as (_ & _ & -> & _).
  destruct c; try exact Hinv; try reflexivity. now contradiction He.
Qed.

End Calls.

(** C1. The control byte of the 2014 codec follows the override
    precedence: a pending reboot makes the whole byte 0x80, also when
    the robot is emergency-stopped; otherwise an emergency stop makes it
    0x00; otherwise it is 0x40 or-ed with the mode bits (Test 0x02,
    Autonomous 0x10, Teleoperated 0x00), 0x20 if enabled, 0x04 if a
    resync is pending and 0x08 if FMS communications are up.  The robot
    packet carries that byte at offset 2. *)
Theorem control_code_precedence :
  forall axis button fbyte crc psize (cfg : Config) (st : State),
    get_control_code cfg st =
      (if truthy (reboot st) then 0x80
       else if emergency_stopped cfg then 0x00
       else plain_control_code cfg st)
    /\ sds_at (fst (create_robot_packet axis button fbyte crc psize cfg st)) 2
       = get_control_code cfg st.
Proof.
  intros axis button fbyte crc psize cfg st. split.
  - apply get_control_code_eq.
  - rewrite <- (sds_at_take 8) by lia.
    rewrite robot_packet_header. unfold sds_at. cbn [nth].
    rewrite uint8_idem. apply get_control_code_byte.
Qed.

(** C2. Every robot packet built by the 2014 codec is exactly 1024 bytes
    long and carries the ASCII version "04011600" in bytes 72 to 79; in
    teleoperated mode, team 3794, red alliance, position 1, enabled,
    with no flag pending, no FMS communications and send counter 0,
    bytes 0 to 7 are 00 00 60 00 0E D2 52 31. *)
Theorem robot_packet_layout :
  forall axis button fbyte crc psize (cfg : Config) (st : State),
    let p := fst (create_robot_packet axis button fbyte crc psize cfg st) in
    length p = 1024%nat
    /\ take 8 (drop 72 p) = [0x30; 0x34; 0x30; 0x31; 0x31; 0x36; 0x30; 0x30]
    /\ (idle_teleop_3794 cfg st ->
        take 8 p = [0x00; 0x00; 0x60; 0x00; 0x0E; 0xD2; 0x52; 0x31]).
Proof.
  intros axis button fbyte crc psize cfg st p. subst p.
  split; [apply robot_packet_length|].
  split; [apply robot_packet_version|].
  intros (Hmode & Hteam & Hall & Hpos & Hen & Hstop & Hfms & Hsync & Hboot & _ & Hcnt).
  rewrite robot_packet_header, get_control_code_eq.
  unfold plain_control_code, get_alliance_code, get_position_code,
    CFG_GetTeamNumber, CFG_GetAlliance, CFG_GetPosition.
  rewrite Hmode, Hteam, Hall, Hpos, Hen, Hstop, Hfms, Hsync, Hboot, Hcnt.
  reflexivity.
Qed.

Lemma robot_packet_layout_witness :
  idle_teleop_3794 idle_config initial_state
  /\ take 8 (fst (create_robot_packet (fun _ _ => 0%float) (fun _ _ => 0)
                    (fun _ _ => 0) (fun _ _ _ => 0) 8 idle_config initial_state))
     = [0x00; 0x00; 0x60; 0x00; 0x0E; 0xD2; 0x52; 0x31].
Proof.
  assert (H : idle_teleop_3794 idle_config initial_state)
    by (repeat split; reflexivity).
  split; [exact H|].
  exact (proj2 (proj2 (robot_packet_layout (fun _ _ => 0%float) (fun _ _ => 0)
                         (fun _ _ => 0) (fun _ _ _ => 0) 8
                         idle_config initial_state)) H).
Defined.

(** C10. In the 2014 codec [restart_robot_code] sets the [restart_code]
    flag and nothing reads it: whatever the configuration and the
    statics, every call of the descriptor, the FMS, radio and robot
    packet builders among them, hands back the same bytes and leaves
    the same configuration whether or not the flag is set; and the flag
    goes back to 0 in [reset_robot] only. *)
Theorem restart_code_is_never_read :
  forall axis button fbyte crc psize (c : Call) (cfg : Config) (st : State) (x : Z),
    restart_code (restart_robot_code st) = 1
    /\ fst (create_robot_packet axis button fbyte crc psize cfg (with_restart_code x st))
       = fst (create_robot_packet axis button fbyte crc psize cfg st)
    /\ fst (call axis button fbyte crc psize c (cfg, with_restart_code x st))
       = fst (call axis button fbyte crc psize c (cfg, st))
    /\ fst (snd (call axis button fbyte crc psize c (cfg, with_restart_code x st)))
       = fst (snd (call axis button fbyte crc psize c (cfg, st)))
    /\ restart_code (snd (snd (call axis button fbyte crc psize c (cfg, st)))) =
         match c with
         | ResetRobot => 0
         | RestartRobotCode => 1
         | _ => restart_code st
         end.
Proof.
  intros axis button fbyte crc psize c cfg st x.
  split; [reflexivity|].
  split; [now rewrite build_with_restart_code|].
  split; [|split; [|apply call_statics]].
  - destruct c; cbn [call fst]; try reflexivity.
    + now destruct (read_fms_packet data cfg).
    + now destruct (read_robot_packet data cfg).
  - destruct c; cbn [call fst snd]; try reflexivity.
    + now destruct (read_fms_packet data cfg).
    + now destruct (read_robot_packet data cfg).
Qed.

(** C6, in the form that holds of the code.  The 2014 robot parser
    decodes the voltage as upper = (data[1] * 12) / 0x12 and
    lower = (data[2] * 12) / 0x12, integer quotients of unsigned bytes
    that fit a byte again, and reports upper + lower / 255; with
    data[1] = 0x12 and data[2] = 0x14 this is upper = 12, lower = 13
    and a voltage within 0.0001 of 12.0510. *)
Theorem read_robot_packet_voltage :
  forall (data : sds) (cfg : Config),
    1024 <= sdslen data ->
    let upper := sds_at data 1 * 12 / 0x12 in
    let lower := sds_at data 2 * 12 / 0x12 in
    let reported := robot_voltage (snd (read_robot_packet (Some data) cfg)) in
    fst (read_robot_packet (Some data) cfg) = 1
    /\ 0 <= upper < 0x100 /\ 0 <= lower < 0x100
    /\ reported
       = (double_of_int upper + double_of_int lower / double_of_int 255)%float
    /\ (sds_at data 1 = 0x12 -> sds_at data 2 = 0x14 ->
        upper = 12 /\ lower = 13
        /\ (PrimFloat.abs (reported - 120510 / 10000) <? 1 / 10000)%float = true).
Proof.
  intros data cfg Hlen upper lower reported.
  assert (Hu : 0 <= upper < 0x100).
  { subst upper. pose proof (uint8_range (nth 1 data 0)) as H.
    fold (sds_at data 1) in H. split.
    - apply Z.div_pos; lia.
    - apply Z.div_lt_upper_bound; lia. }
  assert (Hl : 0 <= lower < 0x100).
  { subst lower. pose proof (uint8_range (nth 2 data 0)) as H.
    fold (sds_at data 2) in H. split.
    - apply Z.div_pos; lia.
    - apply Z.div_lt_upper_bound; lia. }
  assert (Hrep : reported
            = (double_of_int upper + double_of_int lower / double_of_int 255)%float).
  { subst reported. unfold read_robot_packet.
    apply Z.ltb_ge in Hlen. rewrite Hlen. cbn [snd].
    fold upper. fold lower. now rewrite (uint8_small upper), (uint8_small lower). }
  split.
  { unfold read_robot_packet. apply Z.ltb_ge in Hlen. now rewrite Hlen. }
  split; [exact Hu|]. split; [exact Hl|]. split; [exact Hrep|].
  intros H1 H2. rewrite Hrep. subst upper lower. rewrite H1, H2.
  repeat split; reflexivity.
Qed.

Lemma read_robot_packet_voltage_witness :
  1024 <= sdslen reply_12_14
  /\ robot_voltage (snd (read_robot_packet (Some reply_12_14) idle_config))
     = (12 + 13 / 255)%float.
Proof.
  assert (H : 1024 <= sdslen reply_12_14) by (apply Z.leb_le; reflexivity).
  split; [exact H|].
  destruct (read_robot_packet_voltage reply_12_14 idle_config H)
    as (_ & _ & _ & -> & _).
  reflexivity.
Defined.

(** C6 does not hold as stated: on a reply with voltage bytes 0x12 and
    0x14 the parser does not arrive at lower = 20 and 12.0784 V; the
    quotient (0x14 * 12) / 0x12 is 13, and the reported voltage
    12 + 13 / 255 is more than 0.02 V away from 12.0784. *)
Lemma read_robot_packet_voltage_example :
  let reported :=
    robot_voltage (snd (read_robot_packet (Some reply_12_14) idle_config)) in
  sds_at reply_12_14 1 = 0x12 /\ sds_at reply_12_14 2 = 0x14
  /\ sds_at reply_12_14 2 * 12 / 0x12 = 13
  /\ sds_at reply_12_14 2 * 12 / 0x12 <> 20
  /\ reported = (12 + 13 / 255)%float
  /\ (2 / 100 <? PrimFloat.abs (reported - 120784 / 10000))%float = true.
Proof. repeat split; try reflexivity. discriminate. Qed.

End FRC2014Facts.

(** ** The 2015 codec *)

Module FRC2015Facts.

Import FRC2015.

(** *** The request byte *)

Lemma get_request_code_eq (cfg : Config) (st : State) :
  get_request_code cfg st =
    if robot_comms cfg then
      if truthy (reboot st) then 0x08
      else if truthy (restart_code st) then 0x04 else 0x80
    else 0x00.
Proof. reflexivity. Qed.

Lemma get_request_code_byte (cfg : Config) (st : State) :
  uint8 (get_request_code cfg st) = get_request_code cfg st.
Proof.
  rewrite get_request_code_eq.
  destruct (robot_comms cfg), (truthy (reboot st)), (truthy (restart_code st));
    reflexivity.
Qed.

(** *** The packets and the statics across calls *)

Lemma fms_packet_bytes (cfg : Config) (st : State) :
  fst (create_fms_packet cfg st) =
    [ uint8 (Z.shiftr (Z.land (sent_fms_packets st) 0xff00) 8);
      uint8 (Z.land (sent_fms_packets st) 0xff);
      uint8 cFMS_DS_Version;
      uint8 (fms_control_code cfg);
      uint8 (Z.shiftr (Z.land (CFG_GetTeamNumber cfg) 0xff00) 8);
      uint8 (Z.land (CFG_GetTeamNumber cfg) 0xff);
      uint8 (fst (encode_voltage (CFG_GetRobotVoltage cfg)));
      uint8 (snd (encode_voltage (CFG_GetRobotVoltage cfg))) ].
Proof. reflexivity. Qed.

Lemma fms_packet_index (cfg : Config) (st : State) :
  packet_index (fst (create_fms_packet cfg st)) = uint16 (sent_fms_packets st).
Proof.
  rewrite fms_packet_bytes. unfold packet_index, sds_at. cbn [nth].
  rewrite !uint8_idem. apply index_bytes.
Qed.

Section Calls.

Variable count : Z.
Variable num_axes num_buttons num_hats : Z -> Z.
Variable axis : Z -> Z -> double.
Variable button hat : Z -> Z -> Z.
Variable fbyte : double -> double -> Z.
Variable timeinfo : tm.
Variable tz : sds.

Let build :=
  create_robot_packet count num_axes num_buttons num_hats axis button hat fbyte
    timeinfo tz.
Let call :=
  call count num_axes num_buttons num_hats axis button hat fbyte timeinfo tz.
Let step :=
  step count num_axes num_buttons num_hats axis button hat fbyte timeinfo tz.
Let run :=
  run count num_axes num_buttons num_hats axis button hat fbyte timeinfo tz.

Lemma robot_header_bytes cfg st :
  take 6 (fst (build cfg st)) =
    [ uint8 (Z.shiftr (Z.land (sent_robot_packets st) 0xff00) 8);
      uint8 (Z.land (sent_robot_packets st) 0xff);
      uint8 cTagGeneral;
      uint8 (get_control_code cfg);
      uint8 (get_request_code cfg st);
      uint8 (get_station_code cfg) ].
Proof.
  subst build. unfold create_robot_packet. cbv zeta. cbn [fst].
  destruct (truthy (send_time_data st)); [reflexivity|].
  destruct (5 <? sent_robot_packets st); reflexivity.
Qed.

Lemma robot_header_index cfg st :
  packet_index (fst (build cfg st)) = uint16 (sent_robot_packets st).
Proof.
  unfold packet_index.
  rewrite <- !(sds_at_take 6 (fst (build cfg st))) by lia.
  rewrite robot_header_bytes. unfold sds_at. cbn [nth].
  rewrite !uint8_idem. apply index_bytes.
Qed.

Lemma robot_packet_request cfg st :
  sds_at (fst (build cfg st)) 4 = get_request_code cfg st.
Proof.
  rewrite <- (sds_at_take 6) by lia.
  rewrite robot_header_bytes. unfold sds_at. cbn [nth].
  rewrite uint8_idem. apply get_request_code_byte.
Qed.

(** What each call of the descriptor does to the counters and to the
    control code flags. *)
Lemma call_counters_and_flags c cfg st :
  let st' := snd (snd (call c (cfg, st))) in
  sent_fms_packets st' =
    match c with
    | CreateFmsPacket => uint (sent_fms_packets st + 1)
    | _ => sent_fms_packets st
    end
  /\ sent_robot_packets st' =
       match c with
       | CreateRobotPacket => uint (sent_robot_packets st + 1)
       | _ => sent_robot_packets st
       end
  /\ reboot st' =
       match c with ResetRobot => 0 | RebootRobot => 1 | _ => reboot st end
  /\ restart_code st' =
       match c with
       | ResetRobot => 0
       | RestartRobotCode => 1
       | _ => restart_code st
       end.
Proof.
  subst call. destruct c; cbn [FRC2015.call snd]; auto.
  - destruct (read_fms_packet data cfg); auto.
  - unfold read_robot_packet. destruct data as [data|]; auto.
    destruct (sdslen data <? 7); auto.
Qed.

Lemma run_step e es w : run (e :: es) w = run es (step e w).
Proof. reflexivity. Qed.

(** A property of the statics that every permitted call preserves holds
    after any sequence of permitted events. *)
Lemma run_preserves (permitted : Event -> Prop) (inv : State -> Prop) :
  (forall c cfg st,
     permitted (Invoke c) -> inv st -> inv (snd (snd (call c (cfg, st))))) ->
  forall es w, Forall permitted es -> inv (snd w) -> inv (snd (run es w)).
Proof.
  intros Hcall es w Hes. revert w.
  induction Hes as [|e es He _ IH]; intros w Hw; [exact Hw|].
  rewrite run_step. apply IH. destruct e as [c|cfg']; [|exact Hw].
  destruct w as [cfg st]. now apply Hcall.
Qed.

Lemma run_keeps_robot_counter es w :
  Forall (fun e => e <> Invoke CreateRobotPacket) es ->
  sent_robot_packets (snd (run es w)) = sent_robot_packets (snd w).
Proof.
  intros Hes.
  apply (run_preserves (fun e => e <> Invoke CreateRobotPacket)
           (fun st => sent_robot_packets st = sent_robot_packets (snd w)));
    [|exact Hes|reflexivity].
  intros c cfg st He Hinv.
  destruct (call_counters_and_flags c cfg st) as (_ & -> & _).
  destruct c; try exact Hinv. now contradiction He.
Qed.

Lemma run_keeps_fms_counter es w :
  Forall (fun e => e <> Invoke CreateFmsPacket) es ->
  sent_fms_packets (snd (run es w)) = sent_fms_packets (snd w).
Proof.
  intros Hes.
  apply (run_preserves (fun e => e <> Invoke CreateFmsPacket)
           (fun st => sent_fms_packets st = sent_fms_packets (snd w)));
    [|exact Hes|reflexivity].
  intros c cfg st He Hinv.
  destruct (call_counters_and_flags c cfg st) as (-> & _).
  destruct c; try exact Hinv. now contradiction He.
Qed.

Lemma run_keeps_reboot_request es w :
  Forall (fun e => e <> Invoke ResetRobot) es ->
  truthy (reboot (snd w)) = true ->
  truthy (reboot (snd (run es w))) = true.
Proof.
  apply (run_preserves (fun e => e <> Invoke ResetRobot)
           (fun st => truthy (reboot st) = true)).
  intros c cfg st He Hinv.
  destruct (call_counters_and_flags c cfg st) as (_ & _ & -> & _).
  destruct c; try exact Hinv; try reflexivity. now contradiction He.
Qed.

(** A restart-code request stays the only pending command as long as
    the robot is neither reset nor told to reboot. *)
Lemma run_keeps_restart_code es w :
  Forall (fun e => e <> Invoke ResetRobot /\ e <> Invoke RebootRobot) es ->
  truthy (reboot (snd w)) = false /\ truthy (restart_code (snd w)) = true ->
  truthy (reboot (snd (run es w))) = false
  /\ truthy (restart_code (snd (run es w))) = true.
Proof.
  apply (run_preserves
           (fun e => e <> Invoke ResetRobot /\ e <> Invoke RebootRobot)
           (fun st => truthy (reboot st) = false
                      /\ truthy (restart_code st) = true)).
  intros c cfg st [He1 He2] Hinv.
  destruct (call_counters_and_flags c cfg st) as (_ & _ & -> & ->).
  destruct c; try exact Hinv; try (now contradiction He1);
    try (now contradiction He2).
  split; [apply Hinv|reflexivity].
Qed.

End Calls.

(** *** The robot parser *)

Lemma read_extended_keeps data offset cfg :
  robot_code (read_extended data offset cfg) = robot_code cfg
  /\ emergency_stopped (read_extended data offset cfg) = emergency_stopped cfg
  /\ robot_voltage (read_extended data offset cfg) = robot_voltage cfg.
Proof.
  unfold read_extended.
  repeat match goal with |- context [if ?b then _ else _] => destruct b end;
    repeat split; reflexivity.
Qed.

(** C4, in the form that holds of the code.  On a datagram of at least
    7 bytes the 2015 robot parser answers 1, reads control from byte 3,
    status from byte 4, the voltage bytes from bytes 5 and 6 and the
    request from byte 7 (the terminating zero of a 7-byte datagram),
    and sets
    robot_code_present = (status & 0x20) != 0,
    emergency_stopped = (control & 0x80) != 0,
    voltage = upper + lower / 255 and
    send_time_data = (request == 0x01).  On the reply
    00 51 01 00 31 00 01 00 that is: status 0x31, so robot code present;
    not emergency-stopped; upper 0 and lower 1, so 1/255 V; request
    0x00, so no time data. *)
Theorem read_robot_packet_fields :
  (forall (data : sds) (cfg : Config) (st : State),
     7 <= sdslen data ->
     let control := sds_at data 3 in
     let status := sds_at data 4 in
     let upper := sds_at data 5 in
     let lower := sds_at data 6 in
     let request := sds_at data 7 in
     let r := read_robot_packet (Some data) cfg st in
     fst r = 1
     /\ robot_code (fst (snd r)) = negb (Z.land status 0x20 =? 0)
     /\ emergency_stopped (fst (snd r)) = negb (Z.land control 0x80 =? 0)
     /\ robot_voltage (fst (snd r)) = decode_voltage upper lower
     /\ send_time_data (snd (snd r)) = of_bool (request =? 0x01))
  /\ (forall (cfg : Config) (st : State),
        let r := read_robot_packet (Some quoted_reply) cfg st in
        fst r = 1
        /\ robot_code (fst (snd r)) = true
        /\ emergency_stopped (fst (snd r)) = false
        /\ robot_voltage (fst (snd r)) = (1 / 255)%float
        /\ send_time_data (snd (snd r)) = 0).
Proof.
  split.
  - intros data cfg st Hlen control status upper lower request r.
    subst r. unfold read_robot_packet.
    apply Z.ltb_ge in Hlen. rewrite Hlen. cbn [fst snd].
    split; [reflexivity|].
    destruct (9 <? sdslen data); [|repeat split; reflexivity].
    destruct (read_extended_keeps data 8
      (CFG_SetRobotVoltage (decode_voltage (sds_at data 5) (sds_at data 6))
         (CFG_SetEmergencyStopped (Z.land (sds_at data 3) cEmergencyStop)
            (CFG_SetRobotCode (Z.land (sds_at data 4) cRobotHasCode) cfg))))
      as (-> & -> & ->).
    repeat split; reflexivity.
  - intros cfg st. repeat split; reflexivity.
Qed.

Lemma read_robot_packet_fields_witness :
  7 <= sdslen quoted_reply
  /\ robot_code
       (fst (snd (read_robot_packet (Some quoted_reply) sample_config sample_state)))
     = negb (Z.land (sds_at quoted_reply 4) 0x20 =? 0).
Proof.
  assert (H : 7 <= sdslen quoted_reply) by (apply Z.leb_le; reflexivity).
  split; [exact H|].
  exact (proj1 (proj2 (proj1 read_robot_packet_fields quoted_reply sample_config
                         sample_state H))).
Defined.

(** C4 does not hold as stated: on the reply 00 51 01 00 31 00 01 00
    the parser does not leave robot code absent, 49 V and a time
    request.  Byte 4 is 0x31, which has the 0x20 bit; bytes 5 and 6 are
    00 01; byte 7 is 0x00. *)
Lemma read_robot_packet_quoted_reply :
  let r := read_robot_packet (Some quoted_reply) sample_config sample_state in
  (sds_at quoted_reply 4 = 0x31 /\ robot_code (fst (snd r)) = true
   /\ robot_code (fst (snd r)) <> false)
  /\ (sds_at quoted_reply 5 = 0x00 /\ sds_at quoted_reply 6 = 0x01
      /\ robot_voltage (fst (snd r)) = (1 / 255)%float
      /\ (robot_voltage (fst (snd r)) <? 1 / 100)%float = true)
  /\ (sds_at quoted_reply 7 = 0x00 /\ send_time_data (snd (snd r)) = 0
      /\ send_time_data (snd (snd r)) <> 1).
Proof. repeat split; try reflexivity; discriminate. Qed.

(** *** Voltage bytes *)

(** C5, in the form that holds of the code.  The upper byte of the 2015
    voltage encoder is the floor of the voltage (for a voltage from 0
    up to, not including, 256); and the FMS packet for 12.5 V, FMS
    counter 7, enabled, teleoperated, robot communications present,
    radio communications absent, team 3794 starts 00 07 00 2C 0E D2 0C:
    with robot communications the control byte carries 0x20 and
    0x08. *)
Theorem encode_voltage_upper_fms_packet :
  (forall (v : double) (q : Q),
     double_value v = Some q -> (0 <= q)%Q -> (q < 256)%Q ->
     fst (encode_voltage v) = Qfloor q)
  /\ (forall (cfg : Config) (st : State),
        fms_scenario cfg st ->
        take 7 (fst (create_fms_packet cfg st))
        = [0x00; 0x07; 0x00; 0x2C; 0x0E; 0xD2; 0x0C]).
Proof.
  split.
  - intros v q Hv Hq0 Hq256. unfold encode_voltage. cbn [fst].
    rewrite (int_of_double_floor v q Hv Hq0). apply uint8_small. split.
    + change 0 with (Qfloor 0). now apply Qfloor_resp_le.
    + rewrite Zlt_Qlt. eapply Qle_lt_trans; [apply Qfloor_le|exact Hq256].
  - intros cfg st (Hv & Hcnt & Hen & Hstop & Hmode & Hrobot & Hradio & Hteam).
    rewrite fms_packet_bytes.
    unfold fms_control_code, CFG_GetControlMode, CFG_GetEmergencyStopped,
      CFG_GetRobotEnabled, CFG_GetRadioCommunications,
      CFG_GetRobotCommunications, CFG_GetTeamNumber, CFG_GetRobotVoltage.
    rewrite Hv, Hcnt, Hen, Hstop, Hmode, Hrobot, Hradio, Hteam.
    reflexivity.
Qed.

Lemma encode_voltage_upper_fms_packet_witness :
  (double_value 12.5%float = Some (25 # 2)
   /\ fst (encode_voltage 12.5%float) = Qfloor (25 # 2))
  /\ (fms_scenario sample_config sample_state
      /\ take 7 (fst (create_fms_packet sample_config sample_state))
         = [0x00; 0x07; 0x00; 0x2C; 0x0E; 0xD2; 0x0C]).
Proof.
  assert (Hv : double_value 12.5%float = Some (25 # 2)) by reflexivity.
  assert (Hs : fms_scenario sample_config sample_state)
    by (repeat split; reflexivity).
  split; split; [exact Hv| |exact Hs|].
  - apply (proj1 encode_voltage_upper_fms_packet 12.5%float (25 # 2) Hv);
      [unfold Qle; simpl; lia|reflexivity].
  - exact (proj2 encode_voltage_upper_fms_packet sample_config sample_state Hs).
Defined.

(** C5 does not hold as stated: the FMS packet of the scenario is
    00 07 00 2C 0E D2 0C 00, not 00 07 00 24 0E D2 0C 32. *)
Lemma fms_packet_scenario_bytes :
  fms_scenario sample_config sample_state
  /\ fst (create_fms_packet sample_config sample_state)
     = [0x00; 0x07; 0x00; 0x2C; 0x0E; 0xD2; 0x0C; 0x00]
  /\ fst (create_fms_packet sample_config sample_state)
     <> [0x00; 0x07; 0x00; 0x24; 0x0E; 0xD2; 0x0C; 0x32].
Proof. repeat split; try reflexivity. discriminate. Qed.

(** C8. For every whole-volt value v from 0 to 255, the 2015 voltage
    encoder yields the pair (v, 0), and decoding that pair gives v
    again, so that |decode_voltage (encode_voltage v) - v| <= 1/255. *)
Theorem whole_volt_roundtrip :
  forall n : Z,
    0 <= n <= 255 ->
    let v := double_of_int n in
    let bytes := encode_voltage v in
    bytes = (n, 0)
    /\ (decode_voltage (fst bytes) (snd bytes) =? v)%float = true
    /\ (PrimFloat.abs (decode_voltage (fst bytes) (snd bytes) - v) <=? 1 / 255)%float
       = true.
Proof.
  intros n Hn v bytes. subst v bytes.
  pose (test := fun n : Z =>
    let v := double_of_int n in
    let bytes := encode_voltage v in
    (fst bytes =? n) && (snd bytes =? 0)
    && (decode_voltage (fst bytes) (snd bytes) =? v)%float
    && (PrimFloat.abs (decode_voltage (fst bytes) (snd bytes) - v) <=? 1 / 255)%float).
  assert (Htest : test n = true).
  { apply (forall_below 256); [vm_compute; reflexivity|lia]. }
  unfold test in Htest. cbv zeta in Htest.
  apply andb_prop in Htest as [Htest Hle].
  apply andb_prop in Htest as [Htest Heq].
  apply andb_prop in Htest as [Hfst Hsnd].
  apply Z.eqb_eq in Hfst, Hsnd.
  split; [|split; assumption].
  rewrite (surjective_pairing (encode_voltage (double_of_int n))).
  now rewrite Hfst, Hsnd.
Qed.

Lemma whole_volt_roundtrip_witness :
  encode_voltage (double_of_int 12) = (12, 0).
Proof.
  apply (whole_volt_roundtrip 12). lia.
Defined.

End FRC2015Facts.

(** ** The two descriptors side by side *)

Section Descriptors.

(** The environment of the 2014 codec. *)
Variable axis14 : Z -> Z -> double.
Variable button14 : Z -> Z -> Z.
Variable fbyte14 : double -> double -> Z.
Variable crc14 : Z -> sds -> Z -> Z.
Variable psize14 : Z.

(** The environment of the 2015 codec. *)
Variable count15 : Z.
Variable num_axes15 num_buttons15 num_hats15 : Z -> Z.
Variable axis15 : Z -> Z -> double.
Variable button15 hat15 : Z -> Z -> Z.
Variable fbyte15 : double -> double -> Z.
Variable timeinfo15 : FRC2015.tm.
Variable tz15 : sds.

Let build14 := FRC2014.create_robot_packet axis14 button14 fbyte14 crc14 psize14.
Let call14 := FRC2014.call axis14 button14 fbyte14 crc14 psize14.
Let run14 := FRC2014.run axis14 button14 fbyte14 crc14 psize14.

Let build15 :=
  FRC2015.create_robot_packet count15 num_axes15 num_buttons15 num_hats15
    axis15 button15 hat15 fbyte15 timeinfo15 tz15.
Let call15 :=
  FRC2015.call count15 num_axes15 num_buttons15 num_hats15
    axis15 button15 hat15 fbyte15 timeinfo15 tz15.
Let run15 :=
  FRC2015.run count15 num_axes15 num_buttons15 num_hats15
    axis15 button15 hat15 fbyte15 timeinfo15 tz15.

(** C3. A datagram that is null or shorter than the minimum of its
    parser (2014: 5 bytes from the FMS, 1024 from the robot; 2015: 22
    from the FMS, 7 from the robot) is not consumed: the parser answers
    0, and the configuration registry and the statics of the codec are
    what they were. *)
Theorem short_datagram_not_consumed :
  forall (d : datagram) (cfg : Config) (st14 : FRC2014.State) (st15 : FRC2015.State),
    (too_short 5 d ->
     call14 (ReadFmsPacket d) (cfg, st14) = (Status 0, (cfg, st14)))
    /\ (too_short 1024 d ->
        call14 (ReadRobotPacket d) (cfg, st14) = (Status 0, (cfg, st14)))
    /\ (too_short 22 d ->
        call15 (ReadFmsPacket d) (cfg, st15) = (Status 0, (cfg, st15)))
    /\ (too_short 7 d ->
        call15 (ReadRobotPacket d) (cfg, st15) = (Status 0, (cfg, st15))).
Proof.
  intros d cfg st14 st15.
  repeat split; intros Hshort; destruct d as [data|]; try reflexivity;
    cbn [too_short] in Hshort; apply Z.ltb_lt in Hshort.
  - subst call14. cbn [FRC2014.call]. unfold FRC2014.read_fms_packet.
    now rewrite Hshort.
  - subst call14. cbn [FRC2014.call]. unfold FRC2014.read_robot_packet.
    now rewrite Hshort.
  - subst call15. cbn [FRC2015.call]. unfold FRC2015.read_fms_packet.
    now rewrite Hshort.
  - subst call15. cbn [FRC2015.call]. unfold FRC2015.read_robot_packet.
    now rewrite Hshort.
Qed.

(** C9. On each stream that carries a packet index (2014 to the robot,
    2015 to the robot, 2015 to the FMS) a packet holds the low 16 bits
    of the send counter in bytes 0 and 1, building it adds one to the
    counter, and nothing else touches the counter: whatever happens
    between two successive packets of a stream, the second carries the
    index of the first plus one, modulo 2^16. *)
Theorem packet_index_advances_by_one :
  forall (cfg : Config) (st14 : FRC2014.State) (st15 : FRC2015.State)
         (es : list Event),
    (Forall (fun e => e <> Invoke CreateRobotPacket) es ->
     let first := build14 cfg st14 in
     let w := run14 es (cfg, snd first) in
     packet_index (fst (build14 (fst w) (snd w)))
     = (packet_index (fst first) + 1) mod 0x10000)
    /\ (Forall (fun e => e <> Invoke CreateRobotPacket) es ->
        let first := build15 cfg st15 in
        let w := run15 es (cfg, snd first) in
        packet_index (fst (build15 (fst w) (snd w)))
        = (packet_index (fst first) + 1) mod 0x10000)
    /\ (Forall (fun e => e <> Invoke CreateFmsPacket) es ->
        let first := FRC2015.create_fms_packet cfg st15 in
        let w := run15 es (cfg, snd first) in
        packet_index (fst (FRC2015.create_fms_packet (fst w) (snd w)))
        = (packet_index (fst first) + 1) mod 0x10000).
Proof.
  intros cfg st14 st15 es. repeat split; intros Hes first w; subst first w.
  - subst build14 run14.
    rewrite !FRC2014Facts.robot_packet_index, FRC2014Facts.run_keeps_counter by exact Hes.
    cbn [snd]. rewrite FRC2014Facts.robot_packet_counter. apply uint16_uint_succ.
  - subst build15 run15.
    rewrite !FRC2015Facts.robot_header_index, FRC2015Facts.run_keeps_robot_counter
      by exact Hes.
    cbn [snd]. apply uint16_uint_succ.
  - subst run15.
    rewrite !FRC2015Facts.fms_packet_index, FRC2015Facts.run_keeps_fms_counter by exact Hes.
    cbn [snd]. apply uint16_uint_succ.
Qed.

(** C7, in the form that holds of the code.  A reboot request is
    visible in every robot packet built after it, whatever else
    happens, until [reset_robot] is called; building packets does not
    clear it.  In 2014 the control
    byte is then 0x80, which it never is without a pending reboot; in
    2015 the request byte is then 0x08 while robot communications are
    up and 0x00 otherwise, and it is never 0x08 without a pending
    reboot.  In the 2015 codec a restart-code request is visible in the
    same way, as request byte 0x04 (never seen without the request),
    while robot communications are up and no reboot is pending: the
    reboot request goes first.  [reset_robot] clears both flags in both
    codecs. *)
Theorem one_shot_visibility :
  forall (cfg : Config) (st14 : FRC2014.State) (st15 : FRC2015.State)
         (es : list Event),
    (Forall (fun e => e <> Invoke ResetRobot) es ->
     let w := run14 es (cfg, FRC2014.reboot_robot st14) in
     sds_at (fst (build14 (fst w) (snd w))) 2 = 0x80)
    /\ (truthy (FRC2014.reboot st14) = false ->
        sds_at (fst (build14 cfg st14)) 2 <> 0x80)
    /\ (Forall (fun e => e <> Invoke ResetRobot) es ->
        let w := run15 es (cfg, FRC2015.reboot_robot st15) in
        sds_at (fst (build15 (fst w) (snd w))) 4
        = if robot_comms (fst w) then 0x08 else 0x00)
    /\ (truthy (FRC2015.reboot st15) = false ->
        sds_at (fst (build15 cfg st15)) 4 <> 0x08)
    /\ (Forall (fun e => e <> Invoke ResetRobot /\ e <> Invoke RebootRobot) es ->
        truthy (FRC2015.reboot st15) = false ->
        let w := run15 es (cfg, FRC2015.restart_robot_code st15) in
        sds_at (fst (build15 (fst w) (snd w))) 4
        = if robot_comms (fst w) then 0x04 else 0x00)
    /\ (truthy (FRC2015.restart_code st15) = false ->
        sds_at (fst (build15 cfg st15)) 4 <> 0x04)
    /\ (FRC2014.reboot (FRC2014.reset_robot st14) = 0
        /\ FRC2014.restart_code (FRC2014.reset_robot st14) = 0)
    /\ (FRC2015.reboot (FRC2015.reset_robot st15) = 0
        /\ FRC2015.restart_code (FRC2015.reset_robot st15) = 0).
Proof.
  intros cfg st14 st15 es.
  split; [|split; [|split; [|split; [|split; [|split]]]]].
  - intros Hes w. subst w build14 run14.
    rewrite FRC2014Facts.robot_packet_control, FRC2014Facts.get_control_code_eq.
    now rewrite FRC2014Facts.run_keeps_reboot.
  - intros Hboot. subst build14.
    rewrite FRC2014Facts.robot_packet_control, FRC2014Facts.get_control_code_eq, Hboot.
    unfold FRC2014.plain_control_code.
    destruct (emergency_stopped cfg); [discriminate|].
    destruct (control_mode cfg), (robot_enabled cfg),
      (truthy (FRC2014.resync st14)), (fms_comms cfg); discriminate.
  - intros Hes w. subst w build15 run15.
    rewrite FRC2015Facts.robot_packet_request, FRC2015Facts.get_request_code_eq.
    now rewrite FRC2015Facts.run_keeps_reboot_request.
  - intros Hboot. subst build15.
    rewrite FRC2015Facts.robot_packet_request, FRC2015Facts.get_request_code_eq, Hboot.
    destruct (robot_comms cfg), (truthy (FRC2015.restart_code st15));
      discriminate.
  - intros Hes Hboot w. subst w build15 run15.
    rewrite FRC2015Facts.robot_packet_request, FRC2015Facts.get_request_code_eq.
    destruct (FRC2015Facts.run_keeps_restart_code count15 num_axes15 num_buttons15
                num_hats15 axis15 button15 hat15 fbyte15 timeinfo15 tz15 es
                (cfg, FRC2015.restart_robot_code st15) Hes) as [-> ->];
      [split; [exact Hboot|reflexivity]|reflexivity].
  - intros Hcode. subst build15.
    rewrite FRC2015Facts.robot_packet_request, FRC2015Facts.get_request_code_eq, Hcode.
    destruct (robot_comms cfg), (truthy (FRC2015.reboot st15)); discriminate.
  - repeat split.
Qed.

End Descriptors.

Lemma short_datagram_not_consumed_witness :
  too_short 5 (Some [0x00; 0x01; 0x02])
  /\ station_call14 (ReadFmsPacket (Some [0x00; 0x01; 0x02]))
       (FRC2014.idle_config, FRC2014.initial_state)
     = (Status 0, (FRC2014.idle_config, FRC2014.initial_state))
  /\ station_call14 (ReadRobotPacket (Some [0x00; 0x01; 0x02]))
       (FRC2014.idle_config, FRC2014.initial_state)
     = (Status 0, (FRC2014.idle_config, FRC2014.initial_state))
  /\ station_call15 (ReadFmsPacket (Some [0x00; 0x01; 0x02]))
       (FRC2014.idle_config, FRC2015.sample_state)
     = (Status 0, (FRC2014.idle_config, FRC2015.sample_state))
  /\ station_call15 (ReadRobotPacket (Some [0x00; 0x01; 0x02]))
       (FRC2014.idle_config, FRC2015.sample_state)
     = (Status 0, (FRC2014.idle_config, FRC2015.sample_state)).
Proof.
  destruct (short_datagram_not_consumed no_axis no_button no_fbyte no_crc 8
              0 no_count no_count no_count no_axis no_button no_button
              no_fbyte epoch utc (Some [0x00; 0x01; 0x02])
              FRC2014.idle_config FRC2014.initial_state FRC2015.sample_state)
    as (H1 & H2 & H3 & H4).
  split; [reflexivity|].
  split; [apply H1; reflexivity|].
  split; [apply H2; reflexivity|].
  split; [apply H3; reflexivity|apply H4; reflexivity].
Defined.

Lemma packet_index_advances_by_one_witness :
  Forall (fun e => e <> Invoke CreateRobotPacket) interlude
  /\ Forall (fun e => e <> Invoke CreateFmsPacket) interlude
  /\ (let first := station_build14 FRC2014.idle_config FRC2014.initial_state in
      let w := station_run14 interlude (FRC2014.idle_config, snd first) in
      packet_index (fst (station_build14 (fst w) (snd w)))
      = (packet_index (fst first) + 1) mod 0x10000)
  /\ (let first := station_build15 FRC2014.idle_config FRC2015.sample_state in
      let w := station_run15 interlude (FRC2014.idle_config, snd first) in
      packet_index (fst (station_build15 (fst w) (snd w)))
      = (packet_index (fst first) + 1) mod 0x10000)
  /\ (let first :=
        FRC2015.create_fms_packet FRC2014.idle_config FRC2015.sample_state in
      let w := station_run15 interlude (FRC2014.idle_config, snd first) in
      packet_index (fst (FRC2015.create_fms_packet (fst w) (snd w)))
      = (packet_index (fst first) + 1) mod 0x10000).
Proof.
  assert (Hrobot : Forall (fun e => e <> Invoke CreateRobotPacket) interlude)
    by (repeat constructor; discriminate).
  assert (Hfms : Forall (fun e => e <> Invoke CreateFmsPacket) interlude)
    by (repeat constructor; discriminate).
  destruct (packet_index_advances_by_one no_axis no_button no_fbyte no_crc 8
              0 no_count no_count no_count no_axis no_button no_button
              no_fbyte epoch utc FRC2014.idle_config FRC2014.initial_state
              FRC2015.sample_state interlude)
    as (H1 & H2 & H3).
  split; [exact Hrobot|]. split; [exact Hfms|].
  split; [exact (H1 Hrobot)|]. split; [exact (H2 Hrobot)|exact (H3 Hfms)].
Defined.

Lemma one_shot_visibility_witness :
  Forall (fun e => e <> Invoke ResetRobot /\ e <> Invoke RebootRobot) aftermath
  /\ (let w :=
        station_run14 aftermath
          (FRC2014.idle_config, FRC2014.reboot_robot FRC2014.initial_state) in
      sds_at (fst (station_build14 (fst w) (snd w))) 2 = 0x80)
  /\ (let w :=
        station_run15 aftermath
          (FRC2014.idle_config, FRC2015.reboot_robot FRC2015.initial_state) in
      sds_at (fst (station_build15 (fst w) (snd w))) 4
      = if robot_comms (fst w) then 0x08 else 0x00)
  /\ (let w :=
        station_run15 aftermath
          (FRC2014.idle_config, FRC2015.restart_robot_code FRC2015.initial_state) in
      sds_at (fst (station_build15 (fst w) (snd w))) 4
      = if robot_comms (fst w) then 0x04 else 0x00)
  /\ sds_at (fst (station_build14 FRC2014.idle_config FRC2014.initial_state)) 2
     <> 0x80.
Proof.
  assert (Hboth : Forall (fun e => e <> Invoke ResetRobot /\ e <> Invoke RebootRobot)
                    aftermath)
    by (repeat constructor; discriminate).
  assert (Hreset : Forall (fun e => e <> Invoke ResetRobot) aftermath)
    by (repeat constructor; discriminate).
  destruct (one_shot_visibility no_axis no_button no_fbyte no_crc 8
              0 no_count no_count no_count no_axis no_button no_button
              no_fbyte epoch utc FRC2014.idle_config FRC2014.initial_state
              FRC2015.initial_state aftermath)
    as (H1 & H2 & H3 & _ & H5 & _).
  split; [exact Hboth|].
  split; [exact (H1 Hreset)|]. split; [exact (H3 Hreset)|].
  split; [exact (H5 Hboth eq_refl)|exact (H2 eq_refl)].
Defined.

(** C7 does not hold as stated: a pending restart-code request does not
    show in every robot packet built after it.  In the 2015 codec, with
    robot communications up and a reboot pending, the packet built
    after [restart_robot_code] is the packet built without it.  In the
    2014 codec the packet built after [restart_robot_code] is the
    packet built without it as well. *)
Lemma restart_code_request_not_visible :
  (robot_comms FRC2015.sample_config = true
   /\ FRC2015.restart_code
        (FRC2015.restart_robot_code
           (FRC2015.reboot_robot FRC2015.initial_state)) = 1
   /\ fst (station_build15 FRC2015.sample_config
             (FRC2015.restart_robot_code
                (FRC2015.reboot_robot FRC2015.initial_state)))
      = fst (station_build15 FRC2015.sample_config
               (FRC2015.reboot_robot FRC2015.initial_state)))
  /\ (FRC2014.restart_code (FRC2014.restart_robot_code FRC2014.initial_state) = 1
      /\ fst (station_build14 FRC2014.idle_config
                (FRC2014.restart_robot_code FRC2014.initial_state))
         = fst (station_build14 FRC2014.idle_config FRC2014.initial_state)).
Proof. repeat split; reflexivity. Qed.

(** * Further facts about bytes, buffers and loops *)

Lemma sds_at_set_same i v data :
  (i < length data)%nat -> sds_at (sds_set i v data) i = uint8 v.
Proof.
  intros Hi. unfold sds_at, sds_set.
  rewrite nth_lookup, list_lookup_insert_eq by exact Hi.
  simpl. apply uint8_idem.
Qed.

Lemma sds_at_set_other i j v data :
  i <> j -> sds_at (sds_set i v data) j = sds_at data j.
Proof.
  intros Hne. unfold sds_at, sds_set.
  now rewrite !nth_lookup, list_lookup_insert_ne.
Qed.

Lemma uint16_uint c : uint16 (uint c) = uint16 c.
Proof. unfold uint16, uint. apply Z.mod_mod_divide. now exists 0x10000. Qed.

Lemma uint_add_l c n : uint (uint c + n) = uint (c + n).
Proof. unfold uint. now rewrite Z.add_mod_idemp_l by lia. Qed.

(** A value that fits a byte has nothing above its low eight bits. *)
Lemma byte_upper_bits z :
  0 <= z < 0x100 ->
  Z.shiftr (Z.land z 0xff000000) 24 = 0
  /\ Z.shiftr (Z.land z 0xff0000) 16 = 0
  /\ Z.shiftr (Z.land z 0xff00) 8 = 0
  /\ Z.land z 0xff = z.
Proof.
  intros Hz.
  pose (test := fun z : Z =>
    (Z.shiftr (Z.land z 0xff000000) 24 =? 0)
    && (Z.shiftr (Z.land z 0xff0000) 16 =? 0)
    && (Z.shiftr (Z.land z 0xff00) 8 =? 0)
    && (Z.land z 0xff =? z)).
  assert (H : test z = true)
    by (apply (forall_below 256); [vm_compute; reflexivity|lia]).
  unfold test in H.
  apply andb_prop in H as [H H4]. apply andb_prop in H as [H H3].
  apply andb_prop in H as [H1 H2].
  apply Z.eqb_eq in H1, H2, H3, H4. auto.
Qed.

(** Storing a checksum that was first cut down to a byte, big-endian,
    into the last four bytes of a buffer that is zero there. *)
Lemma checksum_stored (data : sds) (c : Z) (n : nat) :
  length data = (n + 4)%nat ->
  drop n data = [0; 0; 0; 0] ->
  let k := uint8 c in
  let p :=
    sds_set (n + 3) (Z.land k 0xff)
      (sds_set (n + 2) (Z.shiftr (Z.land k 0xff00) 8)
         (sds_set (n + 1) (Z.shiftr (Z.land k 0xff0000) 16)
            (sds_set n (Z.shiftr (Z.land k 0xff000000) 24) data))) in
  (forall i : nat, (i < n)%nat -> sds_at p i = sds_at data i)
  /\ sds_at p n = 0 /\ sds_at p (n + 1) = 0 /\ sds_at p (n + 2) = 0
  /\ sds_at p (n + 3) = k
  /\ <[(n + 3)%nat := 0]> p = data.
Proof.
  intros Hlen Htail k p. subst p.
  destruct (byte_upper_bits k (uint8_range _)) as (-> & -> & -> & ->).
  assert (Hdata : forall j : nat, (j < 4)%nat -> data !! (n + j)%nat = Some 0).
  { intros j Hj. rewrite <- lookup_drop, Htail.
    destruct j as [|[|[|[|j]]]]; try reflexivity. lia. }
  split; [|repeat split].
  - intros i Hi. now rewrite !sds_at_set_other by lia.
  - rewrite !sds_at_set_other by lia. now rewrite sds_at_set_same by lia.
  - rewrite !sds_at_set_other by lia.
    now rewrite sds_at_set_same by (rewrite sds_set_length; lia).
  - rewrite !sds_at_set_other by lia.
    now rewrite sds_at_set_same by (rewrite !sds_set_length; lia).
  - rewrite sds_at_set_same by (rewrite !sds_set_length; lia).
    apply uint8_idem.
  - unfold sds_set. rewrite list_insert_insert_eq.
    change (uint8 0) with 0.
    rewrite (list_insert_id data n) by (rewrite <- (Nat.add_0_r n) at 1; apply Hdata; lia).
    rewrite (list_insert_id data (n + 1)) by (apply Hdata; lia).
    rewrite (list_insert_id data (n + 2)) by (apply Hdata; lia).
    apply list_insert_id, Hdata. lia.
Qed.

Lemma sds_at_window (data : sds) (a n m : nat) :
  (m < n)%nat -> sds_at data (a + m) = sds_at (take n (drop a data)) m.
Proof.
  intros H. unfold sds_at.
  now rewrite !nth_lookup, lookup_take_lt, lookup_drop.
Qed.

Lemma sds_at_app_r (l1 l2 : sds) (n k : nat) :
  length l1 = n -> sds_at (l1 ++ l2) (n + k) = sds_at l2 k.
Proof.
  intros <-. unfold sds_at. rewrite app_nth2 by lia.
  now replace (length l1 + k - length l1)%nat with k by lia.
Qed.

(** A loop that appends to its accumulator builds the concatenation of
    what each round appends. *)
Lemma for_loop_append (n : Z) (body : Z -> sds -> sds) (f : nat -> sds)
    (init : sds) :
  (forall j d, body (Z.of_nat j) d = d ++ f j) ->
  for_loop n body init = init ++ concat (map f (seq 0 (Z.to_nat n))).
Proof.
  intros Hbody. unfold for_loop.
  generalize (seq 0 (Z.to_nat n)) as l. intros l. revert init.
  induction l as [|j l IH]; intros init; cbn [fold_left map concat].
  - now rewrite app_nil_r.
  - now rewrite IH, Hbody, <- app_assoc.
Qed.

Lemma concat_singletons {A B : Type} (g : A -> B) (l : list A) :
  concat (map (fun x => [g x]) l) = map g l.
Proof. induction l as [|x l IH]; cbn; [reflexivity|now rewrite IH]. Qed.

Lemma length_concat_pairs {A B : Type} (g h : A -> B) (l : list A) :
  length (concat (map (fun x => [g x; h x]) l)) = (2 * length l)%nat.
Proof. induction l as [|x l IH]; cbn [map concat app length]; lia. Qed.

Lemma uint_range z : 0 <= uint z < 0x100000000.
Proof. unfold uint. apply Z.mod_pos_bound. lia. Qed.

Lemma string_length_app (a b : string) :
  String.length (a +:+ b) = (String.length a + String.length b)%nat.
Proof.
  induction a as [|c a IH]; [reflexivity|].
  change (S (String.length (a +:+ b))
          = S (String.length a + String.length b)).
  now rewrite IH.
Qed.

Lemma string_app_inj_r (a b t : string) : a +:+ t = b +:+ t -> a = b.
Proof.
  revert b. induction a as [|c a IH]; intros [|c' b] H.
  - reflexivity.
  - change (t = String c' (b +:+ t)) in H.
    apply (f_equal String.length) in H.
    cbn [String.length] in H. rewrite string_length_app in H. lia.
  - change (String c (a +:+ t) = t) in H.
    apply (f_equal String.length) in H.
    cbn [String.length] in H. rewrite string_length_app in H. lia.
  - change (String c (a +:+ t) = String c' (b +:+ t)) in H.
    injection H as -> H. f_equal. now apply IH.
Qed.

Lemma count_calls_nil sel : count_calls sel [] = 0.
Proof. reflexivity. Qed.

Lemma count_calls_cons sel e es :
  count_calls sel (e :: es) =
    (match e with Invoke c => if sel c then 1 else 0 | _ => 0 end)
    + count_calls sel es.
Proof.
  unfold count_calls. cbn [List.filter].
  destruct e as [c|cfg]; [destruct (sel c)|]; cbn [length]; lia.
Qed.

Lemma button_loop_bits (pressed : Z -> Z) (k : nat) :
  (k <= 16)%nat ->
  let word :=
    fold_left
      (fun flags j =>
         uint16 (flags + (if truthy (pressed (Z.of_nat j))
                          then 2 ^ Z.of_nat j else 0)))
      (seq 0 k) 0 in
  0 <= word < 2 ^ Z.of_nat k
  /\ forall j, 0 <= j < Z.of_nat k -> Z.testbit word j = truthy (pressed j).
Proof.
  induction k as [|k IH]; intros Hk.
  { cbn. split; [lia|]. intros j Hj. lia. }
  rewrite seq_S, fold_left_app. cbn [fold_left Nat.add].
  destruct IH as [Hrange Hbits]; [lia|].
  set (F := fold_left _ (seq 0 k) 0) in *.
  set (K := Z.of_nat k) in *.
  assert (HK : 0 <= K <= 15) by lia.
  assert (Hpow : 0 < 2 ^ K) by (apply Z.pow_pos_nonneg; lia).
  assert (HS : 2 ^ Z.of_nat (S k) = 2 * 2 ^ K).
  { rewrite Nat2Z.inj_succ, Z.pow_succ_r by lia. reflexivity. }
  assert (H16 : 2 ^ Z.of_nat (S k) <= 0x10000).
  { change 0x10000 with (2 ^ 16). apply Z.pow_le_mono_r; lia. }
  set (b := if truthy (pressed K) then 2 ^ K else 0).
  assert (Hb : b = 0 \/ b = 2 ^ K)
    by (subst b; destruct (truthy (pressed K)); auto).
  assert (Hsmall : uint16 (F + b) = F + b).
  { unfold uint16. apply Z.mod_small. lia. }
  rewrite Hsmall. split; [lia|].
  intros j Hj.
  destruct (Z.eq_dec j K) as [->|Hne].
  - rewrite <- (Z.add_0_l K) at 1.
    rewrite <- Z.div_pow2_bits by lia.
    subst b. destruct (truthy (pressed K)).
    + replace (F + 2 ^ K) with (F + 1 * 2 ^ K) by lia.
      rewrite Z.div_add, Z.div_small by lia. reflexivity.
    + rewrite Z.add_0_r, Z.div_small by lia. reflexivity.
  - rewrite <- (Z.mod_pow2_bits_low (F + b) K j) by lia.
    replace ((F + b) mod 2 ^ K) with F; [apply Hbits; lia|].
    destruct Hb as [-> | ->].
    + rewrite Z.add_0_r. symmetry. apply Z.mod_small. lia.
    + replace (F + 2 ^ K) with (F + 1 * 2 ^ K) by lia.
      rewrite Z.mod_add by lia. symmetry. apply Z.mod_small. lia.
Qed.

(** The button word of a joystick with at most 16 buttons has bit [j]
    set exactly when button [j] is pressed, and no bit beyond. *)
Lemma button_flags_bits (pressed : Z -> Z) (n : Z) :
  0 <= n <= 16 ->
  0 <= button_flags pressed n < 2 ^ n
  /\ forall j, 0 <= j < n ->
       Z.testbit (button_flags pressed n) j = truthy (pressed j).
Proof.
  intros Hn.
  pose proof (button_loop_bits pressed (Z.to_nat n)) as H.
  cbv zeta in H. rewrite Z2Nat.id in H by lia.
  apply H. lia.
Qed.

(** * Further properties of the 2014 codec *)

Module FRC2014More.

Import FRC2014.

(** *** Alliance and position bytes *)

(** X1. The alliance and position bytes the 2014 codec sends decode, with
    the functions it applies to FMS datagrams, to the alliance and
    position they were made from; the other way round only 'R' and 'B',
    and '1', '2' and '3', survive: every other alliance byte reads as
    blue and comes back as 'B', every other position byte reads as
    position 1 and comes back as '1'. *)
Theorem station_bytes_roundtrip :
  forall (cfg : Config) (byte : Z),
    get_alliance (get_alliance_code cfg) = alliance cfg
    /\ get_position (get_position_code cfg) = position cfg
    /\ get_alliance_code (CFG_SetAlliance (get_alliance byte) cfg)
       = (if byte =? 0x52 then 0x52 else 0x42)
    /\ get_position_code (CFG_SetPosition (get_position byte) cfg)
       = (if (byte =? 0x32) || (byte =? 0x33) then byte else 0x31).
Proof.
  intros cfg byte. repeat split.
  - unfold get_alliance_code, CFG_GetAlliance. now destruct (alliance cfg).
  - unfold get_position_code, CFG_GetPosition. now destruct (position cfg).
  - unfold get_alliance_code, get_alliance, cAllianceRed.
    now destruct (byte =? 0x52).
  - unfold get_position_code, get_position, cPosition1, cPosition2, cPosition3.
    destruct (byte =? 0x31) eqn:H1; [apply Z.eqb_eq in H1; now subst|].
    destruct (byte =? 0x32) eqn:H2; [apply Z.eqb_eq in H2; now subst|].
    destruct (byte =? 0x33) eqn:H3; [apply Z.eqb_eq in H3; now subst|].
    reflexivity.
Qed.

(** *** The FMS parser *)

Lemma land_0x53 m : Z.land m 0x43 = 0 -> Z.land m 0x53 = Z.land m 0x10.
Proof.
  intros H. change 0x53 with (Z.lor 0x43 0x10).
  now rewrite Z.land_lor_distr_r, H.
Qed.

(** X2. A 2014 FMS datagram of at least 5 bytes is consumed, and only
    the control mode, the enabled flag, the alliance and the position
    of the registry change.  The mode becomes Teleoperated as soon as
    byte 2 shares a bit with 0x43, Autonomous when it does not but has
    bit 0x10, and stays what it was otherwise: the Teleoperated test
    runs last and 0x43 lies within 0x53, so the byte 0x53 itself
    selects Teleoperated.  The robot is enabled exactly when byte 2 has
    bit 0x20; byte 3 gives the alliance and byte 4 the position. *)
Theorem read_fms_packet_effect :
  forall (data : sds) (cfg : Config),
    5 <= sdslen data ->
    let m := sds_at data 2 in
    read_fms_packet (Some data) cfg =
      (1,
       mkConfig (team_number cfg)
         (if truthy (Z.land m 0x43) then DS_CONTROL_TELEOPERATED
          else if truthy (Z.land m 0x10) then DS_CONTROL_AUTONOMOUS
          else control_mode cfg)
         (get_alliance (sds_at data 3)) (get_position (sds_at data 4))
         (truthy (Z.land m 0x20)) (emergency_stopped cfg) (fms_comms cfg)
         (radio_comms cfg) (robot_comms cfg) (robot_code cfg)
         (robot_voltage cfg) (robot_cpu_usage cfg) (robot_ram_usage cfg)
         (robot_disk_usage cfg) (can_utilization cfg))
    /\ (m = 0x53 ->
        control_mode (snd (read_fms_packet (Some data) cfg))
        = DS_CONTROL_TELEOPERATED).
Proof.
  intros data cfg Hlen m.
  assert (Heq : read_fms_packet (Some data) cfg =
      (1,
       mkConfig (team_number cfg)
         (if truthy (Z.land m 0x43) then DS_CONTROL_TELEOPERATED
          else if truthy (Z.land m 0x10) then DS_CONTROL_AUTONOMOUS
          else control_mode cfg)
         (get_alliance (sds_at data 3)) (get_position (sds_at data 4))
         (truthy (Z.land m 0x20)) (emergency_stopped cfg) (fms_comms cfg)
         (radio_comms cfg) (robot_comms cfg) (robot_code cfg)
         (robot_voltage cfg) (robot_cpu_usage cfg) (robot_ram_usage cfg)
         (robot_disk_usage cfg) (can_utilization cfg))).
  { unfold read_fms_packet. apply Z.ltb_ge in Hlen. rewrite Hlen.
    fold m. unfold cFMSAutonomous, cFMSTeleoperated, cEnabled.
    destruct (truthy (Z.land m 0x43)) eqn:H43.
    - now destruct (truthy (Z.land m 0x53)).
    - assert (H0 : Z.land m 0x43 = 0).
      { unfold truthy in H43. apply negb_false_iff in H43.
        now apply Z.eqb_eq. }
      rewrite (land_0x53 m H0). now destruct (truthy (Z.land m 0x10)). }
  split; [exact Heq|].
  intros Hm. rewrite Heq, Hm. reflexivity.
Qed.

Lemma read_fms_packet_effect_witness :
  5 <= sdslen [0x00; 0x00; 0x53; 0x52; 0x32]
  /\ control_mode
       (snd (read_fms_packet (Some [0x00; 0x00; 0x53; 0x52; 0x32]) idle_config))
     = DS_CONTROL_TELEOPERATED.
Proof.
  assert (H : 5 <= sdslen [0x00; 0x00; 0x53; 0x52; 0x32])
    by (apply Z.leb_le; reflexivity).
  split; [exact H|].
  exact (proj2 (read_fms_packet_effect [0x00; 0x00; 0x53; 0x52; 0x32]
                  idle_config H) eq_refl).
Defined.

(** *** The robot packet *)

Section Packets.

Variable axis : Z -> Z -> double.
Variable button : Z -> Z -> Z.
Variable fbyte : double -> double -> Z.
Variable crc : Z -> sds -> Z -> Z.
Variable psize : Z.

Let build := create_robot_packet axis button fbyte crc psize.
Let run := run axis button fbyte crc psize.

(** X3. In every 2014 robot packet the bytes between the joystick block
    and the version string (40 to 71) and between the version string
    and the checksum field (80 to 1019) are zero, and so are the first
    three bytes of the checksum field (1020 to 1022): the checksum is
    held in a [uint8_t], so only byte 1023 carries any of it, namely
    the low byte of what [DS_CRC32] answers for seed 0, the packet as
    it is with byte 1023 still zero, and the size of a pointer. *)
Theorem robot_packet_padding_and_checksum :
  forall (cfg : Config) (st : State),
    let p := fst (build cfg st) in
    (forall i : nat, (40 <= i < 72 \/ 80 <= i < 1020)%nat -> sds_at p i = 0)
    /\ sds_at p 1020 = 0 /\ sds_at p 1021 = 0 /\ sds_at p 1022 = 0
    /\ sds_at p 1023 = uint8 (crc 0 (<[1023%nat := 0]> p) psize).
Proof.
  intros cfg st p. subst p build.
  unfold create_robot_packet. cbv zeta. cbn [fst].
  set (data := sds_set 79 _ _).
  assert (Hlen : length data = (1020 + 4)%nat) by reflexivity.
  assert (Htail : drop 1020 data = [0; 0; 0; 0]) by reflexivity.
  assert (Hpad : forallb (fun i => nth i data 0 =? 0) (seq 40 32 ++ seq 80 940)
                 = true) by (vm_compute; reflexivity).
  clearbody data.
  destruct (checksum_stored data (crc crc32 data psize) 1020 Hlen Htail)
    as (Hlow & H0 & H1 & H2 & H3 & Hzero).
  split; [|split; [exact H0|split; [exact H1|split; [exact H2|]]]].
  - intros i Hi.
    assert (Hi' : (i < 1020)%nat) by lia.
    assert (Hin : In i (seq 40 32 ++ seq 80 940))
      by (rewrite in_app_iff, !in_seq; lia).
    clear Hi. etransitivity; [exact (Hlow i Hi')|].
    rewrite forallb_forall in Hpad.
    unfold sds_at. now rewrite (proj1 (Z.eqb_eq _ _) (Hpad i Hin)).
  - etransitivity; [exact H3|].
    f_equal. f_equal. symmetry. exact Hzero.
Qed.

(** X4. The header of a 2014 robot packet can be read back: bytes 4
    and 5 hold the team number modulo 2^16, high byte first, and bytes
    6 and 7 decode, with the functions the codec applies to FMS
    datagrams, to the alliance and the position of the registry. *)
Theorem robot_packet_header_readback :
  forall (cfg : Config) (st : State),
    let p := fst (build cfg st) in
    sds_at p 4 * 0x100 + sds_at p 5 = uint16 (team_number cfg)
    /\ get_alliance (sds_at p 6) = alliance cfg
    /\ get_position (sds_at p 7) = position cfg.
Proof.
  intros cfg st p. subst p.
  rewrite <- !(sds_at_take 8 (fst (build cfg st))) by lia.
  subst build. rewrite FRC2014Facts.robot_packet_header.
  unfold sds_at. cbn [nth]. rewrite !uint8_idem. repeat split.
  - apply index_bytes.
  - unfold get_alliance_code, CFG_GetAlliance. now destruct (alliance cfg).
  - unfold get_position_code, CFG_GetPosition. now destruct (position cfg).
Qed.

(** X5. The 2014 send counter counts the robot packets built: after any
    sequence of calls and registry changes it has advanced, modulo
    2^32, by the number of [create_robot_packet] calls among them, and
    the next packet carries the low 16 bits of that sum as its index. *)
Theorem counter_counts_robot_packets :
  forall (es : list Event) (cfg : Config) (st : State),
    let w := run es (cfg, st) in
    uint (sent_robot_packets (snd w))
    = uint (sent_robot_packets st + count_calls is_create_robot es)
    /\ packet_index (fst (build (fst w) (snd w)))
       = uint16 (sent_robot_packets st + count_calls is_create_robot es).
Proof.
  intros es cfg st w.
  assert (H : uint (sent_robot_packets (snd w))
              = uint (sent_robot_packets st + count_calls is_create_robot es)).
  { subst w run. revert cfg st.
    induction es as [|e es IH]; intros cfg st.
    - rewrite count_calls_nil, Z.add_0_r. reflexivity.
    - rewrite FRC2014Facts.run_cons, count_calls_cons.
      destruct (step axis button fbyte crc psize e (cfg, st)) as [cfg1 st1] eqn:E.
      rewrite IH. destruct e as [c|cfg'].
      + pose proof (FRC2014Facts.call_statics axis button fbyte crc psize c cfg st)
          as (Hcnt & _).
        cbn [step] in E. rewrite E in Hcnt. cbn [snd] in Hcnt. rewrite Hcnt.
        destruct c; cbn [is_create_robot]; try (now rewrite Z.add_0_l).
        rewrite uint_add_l. f_equal. lia.
      + cbn [step snd] in E. injection E as _ <-. now rewrite Z.add_0_l. }
  split; [exact H|].
  subst build. rewrite FRC2014Facts.robot_packet_index.
  rewrite <- uint16_uint, H. apply uint16_uint.
Qed.

Lemma run_keeps_resync_set es w :
  resync (snd w) = 1 -> resync (snd (run es w)) = 1.
Proof.
  intros H.
  apply (FRC2014Facts.run_invariant axis button fbyte crc psize
           (fun _ => True) (fun st => resync st = 1)); [|now apply Forall_forall|exact H].
  intros c cfg st _ Hinv.
  destruct (FRC2014Facts.call_statics axis button fbyte crc psize c cfg st)
    as (_ & -> & _).
  now destruct c.
Qed.

Lemma run_keeps_resync_clear es w :
  Forall (fun e => e <> Invoke ResetRobot) es ->
  resync (snd w) = 0 -> resync (snd (run es w)) = 0.
Proof.
  apply (FRC2014Facts.run_invariant axis button fbyte crc psize
           (fun e => e <> Invoke ResetRobot) (fun st => resync st = 0)).
  intros c cfg st He Hinv.
  destruct (FRC2014Facts.call_statics axis button fbyte crc psize c cfg st)
    as (_ & -> & _).
  destruct c; try exact Hinv. now contradiction He.
Qed.

(** X6. In the 2014 codec the resync request is never withdrawn.  Before
    the first [reset_robot] no control byte has bit 0x04; from the
    first [reset_robot] on, whatever is called afterwards, the flag
    stays 1 and every control byte that is not overridden by an
    emergency stop or a reboot has bit 0x04. *)
Theorem resync_is_never_withdrawn :
  forall (es : list Event) (cfg : Config) (st : State),
    (let w := run es (cfg, reset_robot st) in
     resync (snd w) = 1
     /\ (truthy (reboot (snd w)) = false ->
         emergency_stopped (fst w) = false ->
         Z.land (sds_at (fst (build (fst w) (snd w))) 2) 0x04 = 0x04))
    /\ (resync st = 0 ->
        Forall (fun e => e <> Invoke ResetRobot) es ->
        let w := run es (cfg, st) in
        Z.land (sds_at (fst (build (fst w) (snd w))) 2) 0x04 = 0).
Proof.
  intros es cfg st. split.
  - intros w.
    assert (H : resync (snd w) = 1) by (now apply run_keeps_resync_set).
    split; [exact H|]. intros Hboot Hstop. subst build.
    rewrite FRC2014Facts.robot_packet_control, FRC2014Facts.get_control_code_eq.
    rewrite Hboot, Hstop. unfold plain_control_code. rewrite H.
    now destruct (control_mode (fst w)), (robot_enabled (fst w)),
      (fms_comms (fst w)).
  - intros Hclear Hes w.
    assert (H : resync (snd w) = 0) by (now apply run_keeps_resync_clear).
    subst build.
    rewrite FRC2014Facts.robot_packet_control, FRC2014Facts.get_control_code_eq.
    unfold plain_control_code. rewrite H.
    now destruct (truthy (reboot (snd w))), (emergency_stopped (fst w)),
      (control_mode (fst w)), (robot_enabled (fst w)), (fms_comms (fst w)).
Qed.

(** X7. A 2014 robot reply of full size changes the voltage, the
    emergency stop and the robot-code flag of the registry and nothing
    else.  Robot code is reported present whatever the reply holds; the
    robot counts as emergency-stopped exactly when byte 0 of the reply
    is 0x00, so any other reply lifts an emergency stop.  The next
    control byte sent is 0x80 with a reboot pending, else 0x00 after
    such a reply, else the plain control byte. *)
Theorem robot_reply_effect :
  forall (data : sds) (cfg : Config) (st : State),
    1024 <= sdslen data ->
    let cfg' := snd (read_robot_packet (Some data) cfg) in
    cfg' =
      mkConfig (team_number cfg) (control_mode cfg) (alliance cfg)
        (position cfg) (robot_enabled cfg) (sds_at data 0 =? 0)
        (fms_comms cfg) (radio_comms cfg) (robot_comms cfg) true
        (robot_voltage cfg') (robot_cpu_usage cfg) (robot_ram_usage cfg)
        (robot_disk_usage cfg) (can_utilization cfg)
    /\ sds_at (fst (build cfg' st)) 2 =
         (if truthy (reboot st) then 0x80
          else if sds_at data 0 =? 0 then 0x00
          else plain_control_code cfg st).
Proof.
  intros data cfg st Hlen cfg'.
  assert (H : cfg' =
      mkConfig (team_number cfg) (control_mode cfg) (alliance cfg)
        (position cfg) (robot_enabled cfg) (sds_at data 0 =? 0)
        (fms_comms cfg) (radio_comms cfg) (robot_comms cfg) true
        (robot_voltage cfg') (robot_cpu_usage cfg) (robot_ram_usage cfg)
        (robot_disk_usage cfg) (can_utilization cfg)).
  { subst cfg'. unfold read_robot_packet.
    apply Z.ltb_ge in Hlen. rewrite Hlen. cbn [snd].
    unfold cEmergencyStopOn. now destruct (sds_at data 0 =? 0). }
  split; [exact H|].
  subst build.
  rewrite FRC2014Facts.robot_packet_control, FRC2014Facts.get_control_code_eq.
  rewrite H. cbn [emergency_stopped]. reflexivity.
Qed.

Lemma robot_packet_joysticks cfg st :
  take 32 (drop 8 (fst (build cfg st))) =
    joystick_block_2014 axis button fbyte 0
    ++ joystick_block_2014 axis button fbyte 1
    ++ joystick_block_2014 axis button fbyte 2
    ++ joystick_block_2014 axis button fbyte 3.
Proof. reflexivity. Qed.

(** X8. Bytes 8 to 39 of a 2014 robot packet are four joystick blocks
    of eight bytes, present or not: in block i, byte j (j below 6) is
    the quantised axis j, and the last two bytes, read big-endian, are
    a word whose bit j (j below 10) is set exactly when button j is
    pressed; bits 10 to 15 are never set. *)
Theorem joystick_blocks_2014 :
  forall (cfg : Config) (st : State) (i j : Z),
    0 <= i < 4 ->
    let p := fst (build cfg st) in
    let word :=
      sds_at p (Z.to_nat (14 + 8 * i)) * 0x100 + sds_at p (Z.to_nat (15 + 8 * i)) in
    (0 <= j < 6 ->
     sds_at p (Z.to_nat (8 + 8 * i + j))
     = uint8 (fbyte (axis i j) (double_of_int 1)))
    /\ (0 <= j < 10 -> Z.testbit word j = truthy (button i j))
    /\ 0 <= word < 2 ^ 10.
Proof.
  intros cfg st i j Hi p word.
  assert (Hword : word = button_flags (button i) 10).
  { subst word p.
    assert (Hcases : i = 0 \/ i = 1 \/ i = 2 \/ i = 3) by lia.
    destruct (button_flags_bits (button i) 10) as [Hrange _]; [lia|].
    rewrite <- (Z.mod_small (button_flags (button i) 10) 0x10000) by lia.
    fold (uint16 (button_flags (button i) 10)).
    rewrite <- index_bytes.
    destruct Hcases as [-> | [-> | [-> | ->]]]; cbn [Z.to_nat Z.mul Z.add Pos.to_nat
      Pos.iter_op Pos.mul Pos.add Pos.succ Nat.add].
    - rewrite (sds_at_window _ 8 32 6), (sds_at_window _ 8 32 7) by lia.
      rewrite robot_packet_joysticks. unfold sds_at. cbn [nth joystick_block_2014 map app].
      now rewrite !uint8_idem.
    - rewrite (sds_at_window _ 8 32 14), (sds_at_window _ 8 32 15) by lia.
      rewrite robot_packet_joysticks. unfold sds_at. cbn [nth joystick_block_2014 map app].
      now rewrite !uint8_idem.
    - rewrite (sds_at_window _ 8 32 22), (sds_at_window _ 8 32 23) by lia.
      rewrite robot_packet_joysticks. unfold sds_at. cbn [nth joystick_block_2014 map app].
      now rewrite !uint8_idem.
    - rewrite (sds_at_window _ 8 32 30), (sds_at_window _ 8 32 31) by lia.
      rewrite robot_packet_joysticks. unfold sds_at. cbn [nth joystick_block_2014 map app].
      now rewrite !uint8_idem. }
  split; [|rewrite Hword; split].
  - intros Hj. subst p.
    replace (Z.to_nat (8 + 8 * i + j)) with (8 + Z.to_nat (8 * i + j))%nat by lia.
    rewrite (sds_at_window _ 8 32) by lia.
    rewrite robot_packet_joysticks.
    assert (Hi' : i = 0 \/ i = 1 \/ i = 2 \/ i = 3) by lia.
    assert (Hj' : j = 0 \/ j = 1 \/ j = 2 \/ j = 3 \/ j = 4 \/ j = 5) by lia.
    unfold sds_at.
    destruct Hi' as [-> | [-> | [-> | ->]]];
      destruct Hj' as [-> | [-> | [-> | [-> | [-> | ->]]]]];
      cbn [Z.to_nat Z.mul Z.add Pos.to_nat Pos.iter_op Pos.mul Pos.add
           Pos.succ Nat.add nth joystick_block_2014 map app];
      apply uint8_idem.
  - intros Hj. apply button_flags_bits; lia.
  - apply button_flags_bits. lia.
Qed.

(** X19. The statics of the 2014 codec stay in range: if the counter is
    below 2^32 and each of the three flags is 0 or 1, as at start-up,
    then they still are after any sequence of calls and registry
    changes. *)
Theorem statics_stay_in_range_2014 :
  forall (es : list Event) (cfg : Config) (st : State),
    statics_in_range_2014 st ->
    statics_in_range_2014 (snd (run es (cfg, st))).
Proof.
  intros es cfg st H.
  apply (FRC2014Facts.run_invariant axis button fbyte crc psize
           (fun _ => True) statics_in_range_2014);
    [|now apply Forall_forall|exact H].
  clear. intros c cfg st _ (Hcnt & Hsync & Hboot & Hcode).
  destruct (FRC2014Facts.call_statics axis button fbyte crc psize c cfg st)
    as (E1 & E2 & E3 & E4).
  unfold statics_in_range_2014, is_flag in *. rewrite E1, E2, E3, E4.
  destruct c; (split; [first [exact Hcnt | apply uint_range]|]);
    repeat split; auto.
Qed.

End Packets.

Lemma robot_packet_padding_and_checksum_witness :
  sds_at (fst (station_build14 idle_config initial_state)) 1000 = 0.
Proof.
  apply (proj1 (robot_packet_padding_and_checksum no_axis no_button no_fbyte
                  no_crc 8 idle_config initial_state) 1000%nat).
  right. split; apply Nat.leb_le; reflexivity.
Defined.

Lemma resync_is_never_withdrawn_witness :
  Forall (fun e => e <> Invoke ResetRobot) aftermath
  /\ (let w := station_run14 aftermath (idle_config, initial_state) in
      Z.land (sds_at (fst (station_build14 (fst w) (snd w))) 2) 0x04 = 0)
  /\ (let w := station_run14 aftermath (idle_config, reset_robot initial_state) in
      Z.land (sds_at (fst (station_build14 (fst w) (snd w))) 2) 0x04 = 0x04).
Proof.
  assert (Hes : Forall (fun e => e <> Invoke ResetRobot) aftermath)
    by (repeat constructor; discriminate).
  destruct (resync_is_never_withdrawn no_axis no_button no_fbyte no_crc 8
              aftermath idle_config initial_state) as [[_ Hset] Hclear].
  split; [exact Hes|].
  split; [exact (Hclear eq_refl Hes)|].
  apply Hset; reflexivity.
Defined.

Lemma robot_reply_effect_witness :
  1024 <= sdslen (replicate 1024 0)
  /\ sds_at
       (fst (station_build14
               (snd (read_robot_packet (Some (replicate 1024 0)) idle_config))
               initial_state)) 2
     = 0x00.
Proof.
  assert (H : 1024 <= sdslen (replicate 1024 0)) by (apply Z.leb_le; reflexivity).
  split; [exact H|].
  exact (proj2 (robot_reply_effect no_axis no_button no_fbyte no_crc 8
                  (replicate 1024 0) idle_config initial_state H)).
Defined.

Lemma joystick_blocks_2014_witness :
  let p := fst (station_build14 idle_config initial_state) in
  Z.testbit (sds_at p 22 * 0x100 + sds_at p 23) 9 = truthy (no_button 1 9).
Proof.
  apply (joystick_blocks_2014 no_axis no_button no_fbyte no_crc 8
           idle_config initial_state 1 9); lia.
Defined.

Lemma statics_stay_in_range_2014_witness :
  statics_in_range_2014 initial_state
  /\ statics_in_range_2014
       (snd (station_run14 aftermath (idle_config, initial_state))).
Proof.
  assert (H : statics_in_range_2014 initial_state)
    by (unfold statics_in_range_2014, is_flag; cbn; repeat split; auto; lia).
  split; [exact H|].
  exact (statics_stay_in_range_2014 no_axis no_button no_fbyte no_crc 8
           aftermath idle_config initial_state H).
Defined.

End FRC2014More.

(** * Further properties of the 2015 codec *)

Module FRC2015More.

Import FRC2015.

(** *** Station, control and request bytes *)

(** X9. The 2015 station byte decodes, with the functions the codec
    applies to FMS datagrams, to the alliance and position it was made
    from; the other way round the six station bytes 0 to 5 come back
    unchanged, and every other byte reads as red 1 and comes back as
    0. *)
Theorem station_code_roundtrip :
  forall (cfg : Config) (byte : Z),
    get_alliance (get_station_code cfg) = alliance cfg
    /\ get_position (get_station_code cfg) = position cfg
    /\ get_station_code
         (CFG_SetPosition (get_position byte)
            (CFG_SetAlliance (get_alliance byte) cfg))
       = (if (0 <=? byte) && (byte <=? 5) then byte else 0).
Proof.
  intros cfg byte. repeat split.
  - unfold get_station_code, CFG_GetPosition, CFG_GetAlliance.
    now destruct (position cfg), (alliance cfg).
  - unfold get_station_code, CFG_GetPosition, CFG_GetAlliance.
    now destruct (position cfg), (alliance cfg).
  - destruct (Z.eq_dec byte 0) as [->|H0]; [reflexivity|].
    destruct (Z.eq_dec byte 1) as [->|H1]; [reflexivity|].
    destruct (Z.eq_dec byte 2) as [->|H2]; [reflexivity|].
    destruct (Z.eq_dec byte 3) as [->|H3]; [reflexivity|].
    destruct (Z.eq_dec byte 4) as [->|H4]; [reflexivity|].
    destruct (Z.eq_dec byte 5) as [->|H5]; [reflexivity|].
    replace ((0 <=? byte) && (byte <=? 5)) with false
      by (symmetry; apply andb_false_iff;
          destruct (Z.leb_spec 0 byte); [right; apply Z.leb_gt; lia|now left]).
    unfold get_station_code, get_alliance, get_position, CFG_GetPosition,
      CFG_GetAlliance, cRed1, cRed2, cRed3, cBlue1, cBlue2, cBlue3.
    cbn [CFG_SetPosition CFG_SetAlliance position alliance].
    apply Z.eqb_neq in H0, H1, H2, H3, H4, H5.
    now rewrite H0, H1, H2, H3, H4, H5.
Qed.


Lemma fms_control_code_bits (cfg : Config) :
  let c := fms_control_code cfg in
  0 <= c < 0x100
  /\ Z.land c 0x03 = mode_code_2015 (control_mode cfg)
  /\ truthy (Z.land c 0x04) = robot_enabled cfg
  /\ truthy (Z.land c 0x08) = robot_comms cfg
  /\ truthy (Z.land c 0x10) = radio_comms cfg
  /\ truthy (Z.land c 0x20) = robot_comms cfg
  /\ truthy (Z.land c 0x80) = emergency_stopped cfg.
Proof.
  unfold fms_control_code, CFG_GetControlMode, CFG_GetRadioCommunications,
    CFG_GetRobotCommunications, CFG_GetEmergencyStopped, CFG_GetRobotEnabled.
  destruct (control_mode cfg), (radio_comms cfg), (robot_comms cfg),
    (emergency_stopped cfg), (robot_enabled cfg); repeat split;
    first [reflexivity | apply Z.leb_le; reflexivity | apply Z.ltb_lt; reflexivity].
Qed.

(** *** The FMS parser *)

(** X10. A 2015 FMS datagram of at least 22 bytes is consumed, and only
    the control mode, the enabled flag, the alliance and the position
    of the registry change.  Bit 0x04 of byte 3 gives the enabled flag
    and byte 5 the station.  The mode becomes Autonomous with bit 0x02
    of byte 3, Test with bit 0x01 and not 0x02, and stays what it was
    otherwise: the Teleoperated test masks with 0x00 and never
    succeeds, so the FMS never moves the driver station to
    Teleoperated. *)
Theorem read_fms_packet_effect_2015 :
  forall (data : sds) (cfg : Config),
    22 <= sdslen data ->
    let c := sds_at data 3 in
    read_fms_packet (Some data) cfg =
      (1,
       mkConfig (team_number cfg)
         (if truthy (Z.land c 0x02) then DS_CONTROL_AUTONOMOUS
          else if truthy (Z.land c 0x01) then DS_CONTROL_TEST
          else control_mode cfg)
         (get_alliance (sds_at data 5)) (get_position (sds_at data 5))
         (truthy (Z.land c 0x04)) (emergency_stopped cfg) (fms_comms cfg)
         (radio_comms cfg) (robot_comms cfg) (robot_code cfg)
         (robot_voltage cfg) (robot_cpu_usage cfg) (robot_ram_usage cfg)
         (robot_disk_usage cfg) (can_utilization cfg))
    /\ (control_mode cfg <> DS_CONTROL_TELEOPERATED ->
        control_mode (snd (read_fms_packet (Some data) cfg))
        <> DS_CONTROL_TELEOPERATED).
Proof.
  intros data cfg Hlen c.
  assert (Heq : read_fms_packet (Some data) cfg =
      (1,
       mkConfig (team_number cfg)
         (if truthy (Z.land c 0x02) then DS_CONTROL_AUTONOMOUS
          else if truthy (Z.land c 0x01) then DS_CONTROL_TEST
          else control_mode cfg)
         (get_alliance (sds_at data 5)) (get_position (sds_at data 5))
         (truthy (Z.land c 0x04)) (emergency_stopped cfg) (fms_comms cfg)
         (radio_comms cfg) (robot_comms cfg) (robot_code cfg)
         (robot_voltage cfg) (robot_cpu_usage cfg) (robot_ram_usage cfg)
         (robot_disk_usage cfg) (can_utilization cfg))).
  { unfold read_fms_packet. apply Z.ltb_ge in Hlen. rewrite Hlen.
    fold c. unfold cTeleoperated, cAutonomous, cTest, cEnabled.
    rewrite Z.land_0_r. change (truthy 0) with false. cbv iota.
    now destruct (truthy (Z.land c 0x02)), (truthy (Z.land c 0x01)). }
  split; [exact Heq|].
  intros Hmode. rewrite Heq. cbn [snd control_mode].
  now destruct (truthy (Z.land c 0x02)), (truthy (Z.land c 0x01)).
Qed.

Lemma read_fms_packet_effect_2015_witness :
  22 <= sdslen (replicate 22 0x07)
  /\ control_mode
       (snd (read_fms_packet (Some (replicate 22 0x07)) sample_config))
     = DS_CONTROL_AUTONOMOUS.
Proof.
  assert (H : 22 <= sdslen (replicate 22 0x07)) by (apply Z.leb_le; reflexivity).
  split; [exact H|].
  now rewrite (proj1 (read_fms_packet_effect_2015 (replicate 22 0x07)
                        sample_config H)).
Defined.

(** X11. The FMS parser of the 2015 codec undoes the codec's own control
    and station bytes: from a datagram that carries, in bytes 3 and 5,
    the control byte and the station byte made from a configuration,
    it recovers that configuration's enabled flag, alliance and
    position, and its mode when that is Autonomous or Test; a
    Teleoperated source leaves the mode as it was. *)
Theorem fms_parser_undoes_control_byte :
  forall (data : sds) (source cfg : Config),
    22 <= sdslen data ->
    sds_at data 3 = get_control_code source ->
    sds_at data 5 = get_station_code source ->
    let cfg' := snd (read_fms_packet (Some data) cfg) in
    robot_enabled cfg' = robot_enabled source
    /\ alliance cfg' = alliance source
    /\ position cfg' = position source
    /\ control_mode cfg' =
         match control_mode source with
         | DS_CONTROL_TELEOPERATED => control_mode cfg
         | m => m
         end.
Proof.
  intros data source cfg Hlen H3 H5 cfg'. subst cfg'.
  unfold read_fms_packet. apply Z.ltb_ge in Hlen. rewrite Hlen.
  rewrite H3, H5. cbn [snd].
  unfold get_control_code, get_station_code, CFG_GetControlMode,
    CFG_GetFMSCommunications, CFG_GetEmergencyStopped, CFG_GetRobotEnabled,
    CFG_GetPosition, CFG_GetAlliance.
  destruct (control_mode source), (fms_comms source),
    (emergency_stopped source), (robot_enabled source), (position source),
    (alliance source); repeat split.
Qed.

Lemma fms_parser_undoes_control_byte_witness :
  22 <= sdslen ([0; 0; 0; 0x04; 0; 0x00] ++ replicate 16 0)
  /\ robot_enabled
       (snd (read_fms_packet (Some ([0; 0; 0; 0x04; 0; 0x00] ++ replicate 16 0))
               FRC2014.idle_config))
     = robot_enabled sample_config.
Proof.
  assert (H : 22 <= sdslen ([0; 0; 0; 0x04; 0; 0x00] ++ replicate 16 0))
    by (apply Z.leb_le; reflexivity).
  split; [exact H|].
  apply (fms_parser_undoes_control_byte _ sample_config FRC2014.idle_config H);
    reflexivity.
Defined.

(** *** The packets *)

(** X12. A 2015 FMS packet is 8 bytes long with byte 2 zero, and what
    it reports can be read back from it: bytes 4 and 5 hold the team
    number modulo 2^16, high byte first; in byte 3 the two low bits
    give the mode (1 Test, 2 Autonomous, 0 Teleoperated), bit 0x04
    enabled, bit 0x80 emergency stop, bit 0x10 radio communications,
    and bits 0x08 and 0x20 both robot communications. *)
Theorem fms_packet_readback :
  forall (cfg : Config) (st : State),
    let p := fst (create_fms_packet cfg st) in
    let c := sds_at p 3 in
    length p = 8%nat
    /\ sds_at p 2 = 0
    /\ sds_at p 4 * 0x100 + sds_at p 5 = uint16 (team_number cfg)
    /\ Z.land c 0x03 = mode_code_2015 (control_mode cfg)
    /\ truthy (Z.land c 0x04) = robot_enabled cfg
    /\ truthy (Z.land c 0x08) = robot_comms cfg
    /\ truthy (Z.land c 0x10) = radio_comms cfg
    /\ truthy (Z.land c 0x20) = robot_comms cfg
    /\ truthy (Z.land c 0x80) = emergency_stopped cfg.
Proof.
  intros cfg st p c. subst c p.
  rewrite FRC2015Facts.fms_packet_bytes. unfold sds_at. cbn [nth length].
  rewrite !uint8_idem.
  destruct (fms_control_code_bits cfg) as (Hrange & Hbits).
  rewrite (uint8_small _ Hrange).
  split; [reflexivity|]. split; [reflexivity|].
  split; [apply index_bytes|exact Hbits].
Qed.

Section Packets.

Variable count : Z.
Variable num_axes num_buttons num_hats : Z -> Z.
Variable axis : Z -> Z -> double.
Variable button hat : Z -> Z -> Z.
Variable fbyte : double -> double -> Z.
Variable timeinfo : tm.
Variable tz : sds.

Let build :=
  create_robot_packet count num_axes num_buttons num_hats axis button hat fbyte
    timeinfo tz.
Let run :=
  run count num_axes num_buttons num_hats axis button hat fbyte timeinfo tz.
Let joysticks :=
  get_joystick_data count num_axes num_buttons num_hats axis button hat fbyte.
Let timezone := get_timezone_data timeinfo tz.

Lemma robot_packet_blocks cfg st :
  drop 6 (fst (build cfg st)) =
    if truthy (send_time_data st) then timezone
    else if 5 <? sent_robot_packets st then joysticks
    else [].
Proof.
  subst build. unfold create_robot_packet. cbv zeta. cbn [fst].
  destruct (truthy (send_time_data st)); [reflexivity|].
  destruct (5 <? sent_robot_packets st); reflexivity.
Qed.



Let block :=
  joystick_block_2015 num_axes num_buttons num_hats axis button hat fbyte.

Lemma joystick_data_blocks :
  joysticks = concat (map (fun i => block (Z.of_nat i)) (seq 0 (Z.to_nat count))).
Proof.
  subst joysticks block. unfold get_joystick_data.
  rewrite (for_loop_append _ _
             (fun i => joystick_block_2015 num_axes num_buttons num_hats axis
                         button hat fbyte (Z.of_nat i))); [reflexivity|].
  intros i d. cbv zeta.
  rewrite (for_loop_append (num_hats (Z.of_nat i)) _
             (fun j =>
                [ uint8 (Z.shiftr (Z.land (hat (Z.of_nat i) (Z.of_nat j)) 0xff00) 8);
                  uint8 (Z.land (hat (Z.of_nat i) (Z.of_nat j)) 0xff) ]))
    by (intros j d'; unfold DS_Append; now rewrite <- app_assoc).
  rewrite (for_loop_append (num_axes (Z.of_nat i)) _
             (fun j =>
                [ uint8 (fbyte (axis (Z.of_nat i) (Z.of_nat j)) (double_of_int 1)) ]))
    by reflexivity.
  rewrite concat_singletons.
  unfold DS_Append, joystick_block_2015, get_joystick_size, cTagJoystick.
  rewrite uint8_idem. fold (button_flags (button (Z.of_nat i)) (num_buttons (Z.of_nat i))).
  replace (2 + 3 + (num_axes (Z.of_nat i) + 1) + (num_hats (Z.of_nat i) * 2 + 1))
    with (7 + num_axes (Z.of_nat i) + 2 * num_hats (Z.of_nat i)) by lia.
  rewrite <- !app_assoc. reflexivity.
Qed.

(** X14. The joystick data of a 2015 robot packet is one block per
    attached joystick, in order.  With axis and hat counts that are not
    negative, the size byte that opens a block is the length of the
    whole block, its own byte included, modulo 256; and with at most 16
    buttons the two bytes after the button count, read big-endian, are
    a word whose bit j is set exactly when button j is pressed. *)
Theorem joystick_blocks_2015 :
  joysticks = concat (map (fun i => block (Z.of_nat i)) (seq 0 (Z.to_nat count)))
  /\ forall i : Z,
       0 <= num_axes i -> 0 <= num_hats i ->
       Z.of_nat (length (block i)) = 7 + num_axes i + 2 * num_hats i
       /\ sds_at (block i) 0 = uint8 (Z.of_nat (length (block i)))
       /\ (0 <= num_buttons i <= 16 ->
           forall j, 0 <= j < num_buttons i ->
             let a := Z.to_nat (num_axes i) in
             Z.testbit
               (sds_at (block i) (3 + (a + 1)) * 0x100
                + sds_at (block i) (3 + (a + 2))) j
             = truthy (button i j)).
Proof.
  split; [exact joystick_data_blocks|].
  intros i Haxes Hhats.
  assert (Hlen : Z.of_nat (length (block i)) = 7 + num_axes i + 2 * num_hats i).
  { subst block. unfold joystick_block_2015.
    rewrite !length_app, length_map, length_seq, length_concat_pairs, length_seq.
    cbn [length]. lia. }
  split; [exact Hlen|]. split.
  - rewrite Hlen. subst block. unfold joystick_block_2015, sds_at. cbn [app nth].
    apply uint8_idem.
  - intros Hbuttons j Hj a.
    destruct (button_flags_bits (button i) (num_buttons i) Hbuttons)
      as [Hrange Hbits].
    rewrite <- (Hbits j Hj).
    assert (H16 : 2 ^ num_buttons i <= 0x10000).
    { change 0x10000 with (2 ^ 16). apply Z.pow_le_mono_r; lia. }
    rewrite <- (Z.mod_small (button_flags (button i) (num_buttons i)) 0x10000)
      by lia.
    fold (uint16 (button_flags (button i) (num_buttons i))).
    rewrite <- index_bytes. subst block. unfold joystick_block_2015.
    rewrite !(sds_at_app_r [_; _; _] _ 3) by reflexivity.
    rewrite !(sds_at_app_r (map _ _) _ a) by (now rewrite length_map, length_seq).
    unfold sds_at. cbn [app nth]. now rewrite !uint8_idem.
Qed.

(** X15. The robot's time request decides what follows the header of
    the next packet.  After a reply of at least 7 bytes whose byte 7 is
    0x01 the next robot packet carries the date and time zone block,
    whatever the send counter; after any other reply it carries the
    joystick blocks or, during the first six packets, nothing.  A
    watchdog reset withdraws a standing time request. *)
Theorem time_request_is_answered :
  forall (data : sds) (cfg : Config) (st : State),
    7 <= sdslen data ->
    let r := read_robot_packet (Some data) cfg st in
    drop 6 (fst (build (fst (snd r)) (snd (snd r)))) =
      (if sds_at data 7 =? 0x01 then timezone
       else if 5 <? sent_robot_packets st then joysticks
       else [])
    /\ drop 6 (fst (build cfg (reset_robot st))) =
         (if 5 <? sent_robot_packets st then joysticks else []).
Proof.
  intros data cfg st Hlen r. subst r. rewrite !robot_packet_blocks.
  unfold read_robot_packet. apply Z.ltb_ge in Hlen. rewrite Hlen.
  cbn [fst snd send_time_data sent_robot_packets reset_robot].
  unfold cRequestTime. split; [|reflexivity].
  now destruct (sds_at data 7 =? 1).
Qed.


(** X17. The 2015 send counters count the packets built: after any
    sequence of calls and registry changes the robot counter has
    advanced, modulo 2^32, by the number of [create_robot_packet]
    calls among them and the FMS counter by the number of
    [create_fms_packet] calls, and the next packet of either stream
    carries the low 16 bits of its sum as index. *)
Theorem counters_count_packets :
  forall (es : list Event) (cfg : Config) (st : State),
    let w := run es (cfg, st) in
    (uint (sent_robot_packets (snd w))
     = uint (sent_robot_packets st + count_calls is_create_robot es)
     /\ packet_index (fst (build (fst w) (snd w)))
        = uint16 (sent_robot_packets st + count_calls is_create_robot es))
    /\ (uint (sent_fms_packets (snd w))
        = uint (sent_fms_packets st + count_calls is_create_fms es)
        /\ packet_index (fst (create_fms_packet (fst w) (snd w)))
           = uint16 (sent_fms_packets st + count_calls is_create_fms es)).
Proof.
  intros es cfg st w.
  assert (H : uint (sent_robot_packets (snd w))
              = uint (sent_robot_packets st + count_calls is_create_robot es)
              /\ uint (sent_fms_packets (snd w))
                 = uint (sent_fms_packets st + count_calls is_create_fms es)).
  { subst w run. revert cfg st.
    induction es as [|e es IH]; intros cfg st.
    - rewrite !count_calls_nil, !Z.add_0_r. now split.
    - rewrite FRC2015Facts.run_step, !count_calls_cons.
      destruct (step count num_axes num_buttons num_hats axis button hat fbyte
                  timeinfo tz e (cfg, st)) as [cfg1 st1] eqn:E.
      destruct (IH cfg1 st1) as [-> ->]. destruct e as [c|cfg'].
      + pose proof (FRC2015Facts.call_counters_and_flags count num_axes
                      num_buttons num_hats axis button hat fbyte timeinfo tz
                      c cfg st) as (Hfms & Hrobot & _).
        cbn [step] in E. rewrite E in Hfms, Hrobot.
        cbn [snd] in Hfms, Hrobot. rewrite Hfms, Hrobot.
        destruct c; cbn [is_create_robot is_create_fms];
          rewrite ?uint_add_l, ?Z.add_0_l; split; f_equal; lia.
      + cbn [step snd] in E. injection E as _ <-.
        now rewrite !Z.add_0_l. }
  destruct H as [Hrobot Hfms].
  split; (split; [assumption|]).
  - subst build. rewrite FRC2015Facts.robot_header_index.
    rewrite <- uint16_uint, Hrobot. apply uint16_uint.
  - rewrite FRC2015Facts.fms_packet_index.
    rewrite <- uint16_uint, Hfms. apply uint16_uint.
Qed.

(** X20. The statics of the 2015 codec stay in range: if both counters
    are below 2^32 and the time request and the two command flags are
    0 or 1, as at start-up, then they still are after any sequence of
    calls and registry changes, whatever datagrams arrive. *)
Theorem statics_stay_in_range_2015 :
  forall (es : list Event) (cfg : Config) (st : State),
    statics_in_range_2015 st ->
    statics_in_range_2015 (snd (run es (cfg, st))).
Proof.
  intros es cfg st H.
  apply (FRC2015Facts.run_preserves count num_axes num_buttons num_hats axis
           button hat fbyte timeinfo tz (fun _ => True) statics_in_range_2015);
    [|now apply Forall_forall|exact H].
  clear. intros c cfg st _ (Hfms & Hrobot & Htime & Hboot & Hcode).
  destruct (FRC2015Facts.call_counters_and_flags count num_axes num_buttons
              num_hats axis button hat fbyte timeinfo tz c cfg st)
    as (E1 & E2 & E3 & E4).
  assert (E0 : is_flag (send_time_data (snd (snd
            (call count num_axes num_buttons num_hats axis button hat fbyte
               timeinfo tz c (cfg, st)))))).
  { destruct c; cbn [FRC2015.call snd]; try exact Htime.
    - now destruct (read_fms_packet data cfg).
    - unfold read_robot_packet. destruct data as [data|]; [|exact Htime].
      destruct (sdslen data <? 7); [exact Htime|].
      cbn [snd send_time_data].
      destruct (sds_at data 7 =? cRequestTime); [now right|now left].
    - now left. }
  unfold statics_in_range_2015. rewrite E1, E2, E3, E4.
  unfold is_flag in *.
  destruct c;
    (split; [first [exact Hfms | apply uint_range]|]);
    (split; [first [exact Hrobot | apply uint_range]|]);
    (split; [exact E0|]); split; auto.
Qed.

End Packets.

Lemma joystick_blocks_2015_witness :
  Z.of_nat
    (length (joystick_block_2015 two_axes three_buttons one_hat no_axis
               odd_pressed no_button no_fbyte 0))
  = 7 + two_axes 0 + 2 * one_hat 0.
Proof.
  apply (proj2 (joystick_blocks_2015 1 two_axes three_buttons one_hat no_axis
                  odd_pressed no_button no_fbyte) 0);
    apply Z.leb_le; reflexivity.
Defined.

Lemma time_request_is_answered_witness :
  7 <= sdslen [0x00; 0x00; 0x01; 0x00; 0x00; 0x0c; 0x00; 0x01]
  /\ (let r :=
        read_robot_packet (Some [0x00; 0x00; 0x01; 0x00; 0x00; 0x0c; 0x00; 0x01])
          sample_config sample_state in
      drop 6 (fst (station_build15 (fst (snd r)) (snd (snd r))))
      = get_timezone_data epoch utc).
Proof.
  assert (H : 7 <= sdslen [0x00; 0x00; 0x01; 0x00; 0x00; 0x0c; 0x00; 0x01])
    by (apply Z.leb_le; reflexivity).
  split; [exact H|].
  exact (proj1 (time_request_is_answered 0 no_count no_count no_count no_axis
                  no_button no_button no_fbyte epoch utc _ sample_config
                  sample_state H)).
Defined.


(** *** Voltage bytes *)

(** X18. Encoding what was decoded loses the lower byte.  For every
    upper byte u and every lower byte below 255, [encode_voltage]
    turns the voltage [decode_voltage] makes of them into (u, 0); with
    lower byte 255 the decoded voltage is u + 1 and the pair is
    (u + 1, 0) (u below 255). *)
Theorem encode_after_decode :
  forall u l : Z,
    0 <= u < 0x100 -> 0 <= l < 0x100 ->
    (l < 255 -> encode_voltage (decode_voltage u l) = (u, 0))
    /\ (l = 255 -> u < 255 -> encode_voltage (decode_voltage u l) = (u + 1, 0)).
Proof.
  intros u l Hu Hl.
  pose (check := fun u l : Z =>
    let bytes := encode_voltage (decode_voltage u l) in
    if l =? 255
    then (u =? 255) || ((fst bytes =? u + 1) && (snd bytes =? 0))
    else (fst bytes =? u) && (snd bytes =? 0)).
  assert (Hall : forallb
            (fun a => forallb (fun b => check (Z.of_nat a) (Z.of_nat b)) (seq 0 256))
            (seq 0 256) = true) by (vm_compute; reflexivity).
  assert (Hrow : forallb (fun b => check u (Z.of_nat b)) (seq 0 256) = true)
    by (apply (forall_below 256
                 (fun u => forallb (fun b => check u (Z.of_nat b)) (seq 0 256)));
        [exact Hall|lia]).
  assert (Hcheck : check u l = true)
    by (apply (forall_below 256 (check u)); [exact Hrow|lia]).
  unfold check in Hcheck. cbv zeta in Hcheck.
  rewrite (surjective_pairing (encode_voltage (decode_voltage u l))).
  split.
  - intros Hlt.
    replace (l =? 255) with false in Hcheck by (symmetry; apply Z.eqb_neq; lia).
    apply andb_prop in Hcheck as [H1 H2].
    apply Z.eqb_eq in H1, H2. now rewrite H1, H2.
  - intros -> Hlt. cbn [Z.eqb Pos.eqb] in Hcheck.
    apply orb_prop in Hcheck as [Hcheck|Hcheck];
      [apply Z.eqb_eq in Hcheck; lia|].
    apply andb_prop in Hcheck as [H1 H2].
    apply Z.eqb_eq in H1, H2. now rewrite H1, H2.
Qed.

Lemma encode_after_decode_witness :
  encode_voltage (decode_voltage 12 127) = (12, 0).
Proof.
  apply (encode_after_decode 12 127); lia.
Defined.

Lemma statics_stay_in_range_2015_witness :
  statics_in_range_2015 initial_state
  /\ statics_in_range_2015
       (snd (station_run15 aftermath (sample_config, initial_state))).
Proof.
  assert (H : statics_in_range_2015 initial_state)
    by (unfold statics_in_range_2015, is_flag; cbn; repeat split; auto; lia).
  split; [exact H|].
  exact (statics_stay_in_range_2015 0 no_count no_count no_count no_axis
           no_button no_button no_fbyte epoch utc aftermath sample_config
           initial_state H).
Defined.

(** *** Addresses *)

(** X21. The robot address of the 2015 codec is "roboRIO-", the team
    number in decimal and ".local"; two configurations get the same
    address exactly when they have the same team number. *)
Theorem robot_address_names_the_team :
  forall cfg1 cfg2 : Config,
    (FRC2015Addresses.robot_address cfg1 = FRC2015Addresses.robot_address cfg2
     <-> team_number cfg1 = team_number cfg2)
    /\ (team_number cfg1 = 3794 ->
        FRC2015Addresses.robot_address cfg1 = "roboRIO-3794.local").
Proof.
  intros cfg1 cfg2. unfold FRC2015Addresses.robot_address, CFG_GetTeamNumber.
  split; [split|].
  - intros H. apply (inj (String.app "roboRIO-")) in H.
    apply string_app_inj_r in H. now apply (inj pretty) in H.
  - now intros ->.
  - now intros ->.
Qed.

Lemma robot_address_names_the_team_witness :
  FRC2015Addresses.robot_address sample_config = "roboRIO-3794.local".
Proof.
  exact (proj2 (robot_address_names_the_team sample_config sample_config) eq_refl).
Defined.

End FRC2015More.
